(** * Email-Generator: the request normalizer and the email composer

    A shallow embedding of [routes/emailRoutes.js] (the handler of
    [POST /api/email/generate]) and of the service module that exports
    [generateEmail], with the facts the specification states about them.

    JavaScript strings are sequences of UTF-16 code units, request payloads
    are JSON values, objects are finite maps from property names to values,
    a thrown exception is an explicit [Throw] result, and the remote
    generative model is an oracle passed to the composer. *)

From Stdlib Require Import ZArith NArith Ascii String Floats.SpecFloat.
From stdpp Require Import base option list gmap.

Set Default Proof Using "Type".
Set Warnings "-register-all".
Open Scope Z_scope.
Open Scope list_scope.

(** ** Strings *)

Abbreviation jsstring := (list N).

(** An ASCII literal of the source, as code units. *)
Definition lit (s : string) : jsstring :=
  (fun a => N_of_ascii a) <$> list_ascii_of_string s.

Arguments lit : simpl never.

Definition dq : jsstring := [34%N].       (* the double quote *)
Definition nl : jsstring := [10%N].       (* \n *)
Definition en_dash : jsstring := [8211%N].  (* U+2013 *)
Definition rsquo : jsstring := [8217%N].  (* U+2019 *)

(** The characters matched by [\s] and removed by [trim]: WhiteSpace and
    LineTerminator of ECMAScript. *)
Definition is_ws (c : N) : bool :=
  ((9 <=? c) && (c <=? 13) || (c =? 32) || (c =? 160) || (c =? 5760)
   || (8192 <=? c) && (c <=? 8202) || (c =? 8232) || (c =? 8233)
   || (c =? 8239) || (c =? 8287) || (c =? 12288) || (c =? 65279))%N.

Arguments is_ws : simpl never.

(** [s.replace(/\s+/g, rep)]: every maximal run of white space becomes
    [rep]. [in_run] tells that the previous code unit was white space. *)
Fixpoint replace_ws_from (in_run : bool) (rep s : jsstring) : jsstring :=
  match s with
  | [] => []
  | c :: s' =>
      if is_ws c
      then (if in_run then [] else rep) ++ replace_ws_from true rep s'
      else c :: replace_ws_from false rep s'
  end.

Definition replace_ws (rep s : jsstring) : jsstring := replace_ws_from false rep s.

Fixpoint trimStart (s : jsstring) : jsstring :=
  match s with
  | [] => []
  | c :: s' => if is_ws c then trimStart s' else s
  end.

Fixpoint trimEnd (s : jsstring) : jsstring :=
  match s with
  | [] => []
  | c :: s' =>
      match trimEnd s' with
      | [] => if is_ws c then [] else [c]
      | r => c :: r
      end
  end.

(** [s.trim()] *)
Definition trim (s : jsstring) : jsstring := trimEnd (trimStart s).

(** [s.replace(/\r\n/g, "\n")] *)
Fixpoint replace_crlf (s : jsstring) : jsstring :=
  match s with
  | 13%N :: 10%N :: s' => 10%N :: replace_crlf s'
  | c :: s' => c :: replace_crlf s'
  | [] => []
  end.

(** [s.indexOf(c)] and [s.lastIndexOf(c)] for a one-unit needle; -1 when
    absent. *)
Fixpoint indexOf (c : N) (s : jsstring) : Z :=
  match s with
  | [] => -1
  | x :: s' => if (x =? c)%N then 0 else
                 let i := indexOf c s' in if i <? 0 then -1 else i + 1
  end.

Fixpoint lastIndexOf (c : N) (s : jsstring) : Z :=
  match s with
  | [] => -1
  | x :: s' => let i := lastIndexOf c s' in
               if 0 <=? i then i + 1 else if (x =? c)%N then 0 else -1
  end.

(** [s.slice(a, b)]: a negative index counts from the end, both are
    clamped to the string. *)
Definition slice (s : jsstring) (a b : Z) : jsstring :=
  let len := Z.of_nat (length s) in
  let from := if a <? 0 then Z.max (len + a) 0 else Z.min a len in
  let to := if b <? 0 then Z.max (len + b) 0 else Z.min b len in
  take (Z.to_nat (to - from)) (drop (Z.to_nat from) s).

(** ** Values *)

Inductive value :=
| VUndefined
| VNull
| VBool (b : bool)
| VNumber (x : spec_float)
| VString (s : jsstring)
| VArray (xs : list value)
| VObject (props : gmap (list N) value).

Inductive error := TypeError | SyntaxError | OtherError.

Inductive completion (A : Type) :=
| Normal (a : A)
| Throw (e : error).
Arguments Normal {A} a.
Arguments Throw {A} e.

Definition bind {A B} (c : completion A) (k : A -> completion B) : completion B :=
  match c with
  | Normal a => k a
  | Throw e => Throw e
  end.

Notation "x <- c ;; k" := (bind c (fun x => k))
  (at level 100, c at next level, right associativity).

(** [ToBoolean] *)
Definition truthy (v : value) : bool :=
  match v with
  | VUndefined | VNull => false
  | VBool b => b
  | VNumber (S754_zero _) | VNumber S754_nan => false
  | VNumber _ => true
  | VString s => negb (bool_decide (s = []))
  | VArray _ | VObject _ => true
  end.

Definition is_string (v : value) : bool :=
  match v with VString _ => true | _ => false end.

(** [typeof v === "object"] *)
Definition typeof_object (v : value) : bool :=
  match v with VNull | VArray _ | VObject _ => true | _ => false end.

(** [a || b] *)
Definition or_else (a b : value) : value := if truthy a then a else b.

(** [v.k] for the property names the program reads (the eleven context
    fields, [rawText], [input], [subject], [body]); none of them is a
    property of a primitive's wrapper, of [Array.prototype] or of
    [Object.prototype], so only an object's own properties answer.
    Reading a property of [undefined] or [null] throws a TypeError. *)
Definition get_prop (v : value) (k : jsstring) : completion value :=
  match v with
  | VUndefined | VNull => Throw TypeError
  | VObject props => Normal (default VUndefined (props !! k))
  | _ => Normal VUndefined
  end.

(** A destructuring default [x = d]: it applies to [undefined] only. *)
Definition with_default (v : value) (d : jsstring) : value :=
  match v with VUndefined => VString d | _ => v end.

(** ** What the program takes from the JavaScript runtime

    [String.prototype.toLowerCase], [JSON.parse] and the abstract operation
    [ToString] (template literals, [String(x)]) are the engine's; the
    program is verified against any engine whose [ToString] leaves a string
    alone and whose [toLowerCase] maps [A]-[Z] to [a]-[z] on ASCII text. *)

Definition ascii_lower (c : N) : N :=
  if ((65 <=? c) && (c <=? 90))%N then (c + 32)%N else c.

Class Runtime := {
  toLowerCase : jsstring -> jsstring;
  JSON_parse : jsstring -> completion value;
  ToString : value -> completion jsstring;
  ToString_string : forall s, ToString (VString s) = Normal s;
  toLowerCase_ascii : forall s,
    Forall (fun c => (c < 128)%N) s -> toLowerCase s = ascii_lower <$> s
}.

(** ** The generative-model client

    [genAI.getGenerativeModel(params).generateContent(prompt)], awaited,
    and the two reads the program makes of the result:
    [result?.response?.text?.() || ""] and [result?.response?.parsed].
    A call that throws or rejects anywhere is [CallThrows]. *)

Inductive SchemaType := STRING | OBJECT.

Record Schema := {
  schema_type : SchemaType;
  properties : list (jsstring * SchemaType);
  required : list jsstring
}.

Record GenerationConfig := {
  responseMimeType : jsstring;
  responseSchema : Schema;
  temperature : spec_float
}.

Record ModelParams := {
  model : jsstring;
  generationConfig : GenerationConfig;
  systemInstruction : jsstring
}.

Inductive Outcome :=
| CallThrows
| CallReturns (text : jsstring) (parsed : value).

Definition GenAI := ModelParams -> jsstring -> Outcome.

Definition emailSchema : Schema :=
  {| schema_type := OBJECT;
     properties := [(lit "subject", STRING); (lit "body", STRING)];
     required := [lit "subject"; lit "body"] |}.

Definition extractorOutputSchema : Schema :=
  {| schema_type := OBJECT;
     properties := [(lit "name", STRING); (lit "jobRole", STRING);
                    (lit "company", STRING); (lit "location", STRING)];
     required := [lit "name"; lit "jobRole"; lit "company"; lit "location"] |}.

(** The doubles nearest to 0.2 and 0.3. *)
Definition temp_0_2 : spec_float := S754_finite false 7205759403792794 (-55).
Definition temp_0_3 : spec_float := S754_finite false 5404319552844595 (-54).

(** ** The service module *)

Record Email := { subject : jsstring; body : jsstring }.

(** The eleven variables bound by the destructuring of [generateEmail]. *)
Record Vars := {
  name : value;
  userEmail : value;
  userPhone : value;
  hrName : value;
  hrEmail : value;
  jobRole : value;
  company : value;
  companyPhone : value;
  education : value;
  skills : value;
  location : value
}.

(** The [safe...] constants of step 2. *)
Record SafeVars := {
  safeHrEmail : jsstring;
  safeUserEmail : jsstring;
  safeUserPhone : jsstring;
  safeCompany : jsstring;
  safeHrName : jsstring;
  safeName : jsstring;
  safeJobRole : jsstring;
  safeLocation : jsstring;
  safeEducation : jsstring;
  safeSkills : jsstring;
  safeCompanyPhone : jsstring
}.

Definition sanitizeString (s : jsstring) : jsstring :=
  trim (replace_ws (lit " ") s).

Definition sanitizeText (s : value) (fallback : jsstring) : jsstring :=
  match s with
  | VString x => sanitizeString x
  | _ => fallback
  end.

Section Service.
Context {R : Runtime}.

Definition deriveHrEmail (company : value) : jsstring :=
  match company with
  | VString c =>
      if negb (truthy company) then lit "hr@company.com"
      else
        let domain := replace_ws [] (toLowerCase c) in
        lit "hr@" ++ domain ++ lit ".com"
  | _ => lit "hr@company.com"
  end.

Definition toPlainMultiline (s : value) : completion jsstring :=
  str <- ToString (or_else s (VString []));;
  Normal (trim (replace_crlf str)).

Definition extractorSystem : jsstring :=
  lit "You are an AI data extractor that outputs strict JSON only.".

Definition extractorPrompt (rawText : jsstring) : jsstring :=
  nl
  ++ lit "From the following text, extract a concise JSON object with the keys:" ++ nl
  ++ lit "{" ++ nl
  ++ lit "  " ++ dq ++ lit "name" ++ dq ++ lit ": " ++ dq
     ++ lit "<candidate name or 'Candidate'>" ++ dq ++ lit "," ++ nl
  ++ lit "  " ++ dq ++ lit "jobRole" ++ dq ++ lit ": " ++ dq
     ++ lit "<role if mentioned or 'Software Engineer'>" ++ dq ++ lit "," ++ nl
  ++ lit "  " ++ dq ++ lit "company" ++ dq ++ lit ": " ++ dq
     ++ lit "<company if mentioned or 'the company'>" ++ dq ++ lit "," ++ nl
  ++ lit "  " ++ dq ++ lit "location" ++ dq ++ lit ": " ++ dq
     ++ lit "<location if mentioned or 'India'>" ++ dq ++ nl
  ++ lit "}" ++ nl
  ++ nl
  ++ lit "Text:" ++ nl
  ++ dq ++ dq ++ dq ++ rawText ++ dq ++ dq ++ dq ++ nl.

Definition extractorParams : ModelParams :=
  {| model := lit "gemini-2.0-flash";
     generationConfig :=
       {| responseMimeType := lit "application/json";
          responseSchema := extractorOutputSchema;
          temperature := temp_0_2 |};
     systemInstruction := extractorSystem |}.

(** The binding pattern of [generateEmail], with its four defaults. *)
Definition destructure (src : value) : completion Vars :=
  v_name <- get_prop src (lit "name");;
  v_userEmail <- get_prop src (lit "userEmail");;
  v_userPhone <- get_prop src (lit "userPhone");;
  v_hrName <- get_prop src (lit "hrName");;
  v_hrEmail <- get_prop src (lit "hrEmail");;
  v_jobRole <- get_prop src (lit "jobRole");;
  v_company <- get_prop src (lit "company");;
  v_companyPhone <- get_prop src (lit "companyPhone");;
  v_education <- get_prop src (lit "education");;
  v_skills <- get_prop src (lit "skills");;
  v_location <- get_prop src (lit "location");;
  Normal
    {| name := v_name;
       userEmail := v_userEmail;
       userPhone := v_userPhone;
       hrName := with_default v_hrName (lit "HR Manager");
       hrEmail := v_hrEmail;
       jobRole := v_jobRole;
       company := v_company;
       companyPhone := v_companyPhone;
       education := with_default v_education (lit "B.Tech in Computer Science");
       skills := with_default v_skills (lit "Java, Python, JavaScript, React, and Node.js");
       location := with_default v_location (lit "Bangalore, India") |}.

(** [typeof input === "object" && !input.rawText ? input : (input || {})] *)
Definition destructuringSource (input : value) : completion value :=
  structured <-
    (if typeof_object input
     then (r <- get_prop input (lit "rawText");; Normal (negb (truthy r)))
     else Normal false);;
  Normal (if structured : bool then input else or_else input (VObject ∅)).

(** The condition of step 1 and the [rawText] it binds:
    [typeof input === "string" || (input && input.rawText)]. *)
Definition rawTextOf (input : value) : completion (option value) :=
  if is_string input then Normal (Some input)
  else if truthy input then
    (r <- get_prop input (lit "rawText");;
     Normal (if truthy r then Some r else None))
  else Normal None.

Definition set_name (x : value) (v : Vars) : Vars :=
  {| name := x; userEmail := userEmail v; userPhone := userPhone v;
     hrName := hrName v; hrEmail := hrEmail v; jobRole := jobRole v;
     company := company v; companyPhone := companyPhone v;
     education := education v; skills := skills v; location := location v |}.

Definition set_jobRole (x : value) (v : Vars) : Vars :=
  {| name := name v; userEmail := userEmail v; userPhone := userPhone v;
     hrName := hrName v; hrEmail := hrEmail v; jobRole := x;
     company := company v; companyPhone := companyPhone v;
     education := education v; skills := skills v; location := location v |}.

Definition set_company (x : value) (v : Vars) : Vars :=
  {| name := name v; userEmail := userEmail v; userPhone := userPhone v;
     hrName := hrName v; hrEmail := hrEmail v; jobRole := jobRole v;
     company := x; companyPhone := companyPhone v;
     education := education v; skills := skills v; location := location v |}.

Definition set_location (x : value) (v : Vars) : Vars :=
  {| name := name v; userEmail := userEmail v; userPhone := userPhone v;
     hrName := hrName v; hrEmail := hrEmail v; jobRole := jobRole v;
     company := company v; companyPhone := companyPhone v;
     education := education v; skills := skills v; location := x |}.

(** The [try] block of step 1. It assigns the four variables one after the
    other, so it answers with the variables as they stand when it ends or
    throws, and with how it ended. *)
Definition tryExtract (genAI : GenAI) (rawText : jsstring) (v : Vars)
  : Vars * completion unit :=
  match genAI extractorParams (extractorPrompt rawText) with
  | CallThrows => (v, Throw OtherError)
  | CallReturns text parsed =>
      let parsedExtract :=
        if truthy parsed then Normal parsed
        else
          let start := indexOf 123 text in
          let end_ := lastIndexOf 125 text in
          if negb (start =? -1) && negb (end_ =? -1)
          then JSON_parse (slice text start (end_ + 1))
          else Normal (VObject ∅) in
      match parsedExtract with
      | Throw e => (v, Throw e)
      | Normal pe =>
          match get_prop pe (lit "name") with
          | Throw e => (v, Throw e)
          | Normal x1 =>
              let v1 := set_name (VString (sanitizeText x1 (lit "Candidate"))) v in
              match get_prop pe (lit "jobRole") with
              | Throw e => (v1, Throw e)
              | Normal x2 =>
                  let v2 := set_jobRole (VString (sanitizeText x2 (lit "Software Engineer"))) v1 in
                  match get_prop pe (lit "company") with
                  | Throw e => (v2, Throw e)
                  | Normal x3 =>
                      let v3 := set_company (VString (sanitizeText x3 (lit "the company"))) v2 in
                      match get_prop pe (lit "location") with
                      | Throw e => (v3, Throw e)
                      | Normal x4 =>
                          (set_location (VString (sanitizeText x4 (lit "India"))) v3,
                           Normal tt)
                      end
                  end
              end
          end
      end
  end.

(** The [catch] block of step 1: four [x ||= d]. *)
Definition extractionDefaults (v : Vars) : Vars :=
  set_location (or_else (location v) (VString (lit "India")))
    (set_company (or_else (company v) (VString (lit "the company")))
       (set_jobRole (or_else (jobRole v) (VString (lit "Software Engineer")))
          (set_name (or_else (name v) (VString (lit "Candidate"))) v))).

(** Step 1. The template literal of the extraction prompt is evaluated
    before the [try], so a [rawText] that cannot be converted to a string
    throws out of [generateEmail]. *)
Definition extractionPhase (genAI : GenAI) (input : value) (v : Vars)
  : completion Vars :=
  raw <- rawTextOf input;;
  match raw with
  | None => Normal v
  | Some rawText =>
      str <- ToString rawText;;
      match tryExtract genAI str v with
      | (v', Normal _) => Normal v'
      | (v', Throw _) => Normal (extractionDefaults v')
      end
  end.

(** Step 2. *)
Definition prepareSafe (v : Vars) : SafeVars :=
  {| safeHrEmail :=
       sanitizeText (or_else (hrEmail v) (VString (deriveHrEmail (company v))))
                    (lit "hr@company.com");
     safeUserEmail := sanitizeText (userEmail v) (lit "example@email.com");
     safeUserPhone := sanitizeText (userPhone v) (lit "+91-XXXXXXXXXX");
     safeCompany := sanitizeText (company v) (lit "the company");
     safeHrName := sanitizeText (hrName v) (lit "HR Manager");
     safeName := sanitizeText (name v) (lit "Candidate");
     safeJobRole := sanitizeText (jobRole v) (lit "Software Engineer");
     safeLocation := sanitizeText (location v) (lit "India");
     safeEducation := sanitizeText (education v) (lit "B.Tech in Computer Science");
     safeSkills := sanitizeText (skills v) (lit "Java, Python, JavaScript, React, and Node.js");
     safeCompanyPhone := sanitizeText (companyPhone v) (lit "N/A") |}.

(** Steps 1 and 2 together: the [safe...] constants the prompt is built
    from. *)
Definition resolveContext (genAI : GenAI) (input : value) : completion SafeVars :=
  src <- destructuringSource input;;
  v <- destructure src;;
  v' <- extractionPhase genAI input v;;
  Normal (prepareSafe v').

(** Step 3. *)
Definition generatorSystem : jsstring :=
  lit "You are a professional corporate HR communication assistant. Use formal, concise business English, no contractions, and return only valid JSON that conforms to the schema.".

Definition prompt (c : SafeVars) : jsstring :=
  nl
  ++ lit "Return only JSON with:" ++ nl
  ++ lit "{" ++ nl
  ++ lit "  " ++ dq ++ lit "subject" ++ dq ++ lit ": " ++ dq
     ++ lit "Application for [Job Role] " ++ en_dash ++ lit " [Name]" ++ dq ++ lit "," ++ nl
  ++ lit "  " ++ dq ++ lit "body" ++ dq ++ lit ": " ++ dq
     ++ lit "Full professional email content using \n as new lines" ++ dq ++ nl
  ++ lit "}" ++ nl
  ++ nl
  ++ lit "Context:" ++ nl
  ++ lit "- Applicant Name: " ++ safeName c ++ nl
  ++ lit "- Applicant Email: " ++ safeUserEmail c ++ nl
  ++ lit "- Applicant Phone: " ++ safeUserPhone c ++ nl
  ++ lit "- Applicant Location: " ++ safeLocation c ++ nl
  ++ lit "- Applicant Education: " ++ safeEducation c ++ nl
  ++ lit "- Applicant Skills: " ++ safeSkills c ++ nl
  ++ lit "- Job Role: " ++ safeJobRole c ++ nl
  ++ lit "- Company: " ++ safeCompany c ++ nl
  ++ lit "- HR Name: " ++ safeHrName c ++ nl
  ++ lit "- HR Email: " ++ safeHrEmail c ++ nl
  ++ lit "- Company Phone: " ++ safeCompanyPhone c ++ nl
  ++ nl
  ++ lit "Guidelines:" ++ nl
  ++ lit "- Greeting: " ++ dq ++ lit "Dear " ++ safeHrName c ++ lit "," ++ dq ++ nl
  ++ lit "- Use 2" ++ en_dash ++ lit "3 paragraphs: introduction/purpose, fit/skills, courteous closing." ++ nl
  ++ lit "- Keep subject under 90 characters; include role and name." ++ nl
  ++ lit "- Maintain a respectful, confident tone without exaggeration." ++ nl
  ++ lit "- Close with " ++ dq ++ lit "Sincerely," ++ dq
     ++ lit " and a signature block: name, location, email, phone." ++ nl.

Definition generatorParams : ModelParams :=
  {| model := lit "gemini-2.5-flash";
     generationConfig :=
       {| responseMimeType := lit "application/json";
          responseSchema := emailSchema;
          temperature := temp_0_3 |};
     systemInstruction := generatorSystem |}.

Definition defaultSubject (c : SafeVars) : jsstring :=
  lit "Application for " ++ safeJobRole c ++ lit " " ++ en_dash ++ lit " " ++ safeName c.

(** Step 4, up to the validation: the [subject] and [body] of the model's
    answer, both known to be strings. The structured result is preferred;
    otherwise the text is parsed, whole or from its first opening brace to
    its last closing brace. *)
Definition generatedFields (genAI : GenAI) (c : SafeVars)
  : completion (jsstring * jsstring) :=
  match genAI generatorParams (prompt c) with
  | CallThrows => Throw OtherError
  | CallReturns text parsed0 =>
      parsed <-
        (if truthy parsed0 then Normal parsed0
         else
           match JSON_parse text with
           | Normal p => Normal p
           | Throw _ =>
               let start := indexOf 123 text in
               let end_ := lastIndexOf 125 text in
               JSON_parse (slice text start (end_ + 1))
           end);;
      if negb (truthy parsed) then Throw OtherError
      else
        s <- get_prop parsed (lit "subject");;
        match s with
        | VString subj =>
            b <- get_prop parsed (lit "body");;
            match b with
            | VString bdy => Normal (subj, bdy)
            | _ => Throw OtherError
            end
        | _ => Throw OtherError
        end
  end.

(** The cap on the subject: [subject.length > 90] selects
    [subject.slice(0, 87).trim()] followed by three dots. *)
Definition finalSubject (subject : jsstring) : jsstring :=
  if 90 <? Z.of_nat (length subject)
  then trim (slice subject 0 87) ++ lit "..."
  else subject.

(** Post-processing of a validated answer. *)
Definition postProcess (c : SafeVars) (subj bdy : jsstring) : completion Email :=
  let subject := sanitizeText (VString subj) (defaultSubject c) in
  body <- toPlainMultiline (VString bdy);;
  Normal {| subject := finalSubject subject; body := body |}.

(** The [try] block of step 4. *)
Definition tryGenerate (genAI : GenAI) (c : SafeVars) : completion Email :=
  fields <- generatedFields genAI c;;
  postProcess c (fst fields) (snd fields).

(** Step 5, the [catch] block. *)
Definition fallbackSubject (c : SafeVars) : jsstring := defaultSubject c.

Definition fallbackBody (c : SafeVars) : jsstring :=
  (lit "Dear " ++ safeHrName c ++ lit "," ++ nl ++ nl)
  ++ (lit "I am writing to formally express my interest in the " ++ safeJobRole c
      ++ lit " position at " ++ safeCompany c
      ++ lit ". With a strong academic background in " ++ safeEducation c
      ++ lit " and comprehensive experience in " ++ safeSkills c
      ++ lit ", I am eager to contribute to your esteemed organization and align my professional aspirations with your company"
      ++ rsquo ++ lit "s values." ++ nl ++ nl)
  ++ (lit "Throughout my academic and project work, I have consistently demonstrated dedication, resourcefulness, and adaptability, attributes which I am confident will enable me to add value to your team. My technical proficiency and commitment to continuous improvement position me as a strong candidate for this role." ++ nl ++ nl)
  ++ (lit "I would appreciate the opportunity to further discuss my qualifications and how they align with your requirements. Thank you for considering my application. I look forward to the possibility of contributing to "
      ++ safeCompany c ++ lit "." ++ nl ++ nl)
  ++ (lit "Sincerely," ++ nl)
  ++ (safeName c ++ nl)
  ++ (safeLocation c ++ nl)
  ++ (lit "Email: " ++ safeUserEmail c ++ nl)
  ++ (lit "Phone: " ++ safeUserPhone c).

Definition fallback (c : SafeVars) : Email :=
  {| subject := fallbackSubject c; body := fallbackBody c |}.

(** Steps 3 to 5 on the resolved constants. *)
Definition compose (genAI : GenAI) (c : SafeVars) : Email :=
  match tryGenerate genAI c with
  | Normal e => e
  | Throw _ => fallback c
  end.

Definition generateEmail (genAI : GenAI) (input : value) : completion Email :=
  c <- resolveContext genAI input;;
  Normal (compose genAI c).

(** ** The route *)

(** [str.match(/(developer|engineer|designer|manager|intern|analyst)/i)]:
    the text of the leftmost match. Without the [u] flag, [i] lets an ASCII
    letter of the pattern match that letter in either case and nothing
    else. *)
Definition ci_eq (p c : N) : bool :=
  ((c =? p) || ((97 <=? p) && (p <=? 122) && (c =? p - 32)))%N.

Fixpoint ci_prefix (pat s : jsstring) : bool :=
  match pat, s with
  | [], _ => true
  | p :: pat', c :: s' => ci_eq p c && ci_prefix pat' s'
  | _ :: _, [] => false
  end.

Definition roleKeywords : list jsstring :=
  [lit "developer"; lit "engineer"; lit "designer"; lit "manager";
   lit "intern"; lit "analyst"].

Fixpoint firstAlternative (alts : list jsstring) (s : jsstring) : option jsstring :=
  match alts with
  | [] => None
  | kw :: alts' =>
      if ci_prefix kw s then Some (take (length kw) s)
      else firstAlternative alts' s
  end.

Fixpoint jobRoleMatch (s : jsstring) : option jsstring :=
  match firstAlternative roleKeywords s with
  | Some m => Some m
  | None => match s with
            | [] => None
            | _ :: s' => jobRoleMatch s'
            end
  end.

(** [str.match(/at\s+([A-Za-z0-9\s&]+)/i)], group 1 of the leftmost match.
    Both quantifiers are greedy and [\s+] gives white space back when the
    class that follows finds nothing to match. *)
Definition in_company_class (c : N) : bool :=
  ((65 <=? c) && (c <=? 90) || (97 <=? c) && (c <=? 122)
   || (48 <=? c) && (c <=? 57) || is_ws c || (c =? 38))%N.

Fixpoint class_run (s : jsstring) : jsstring :=
  match s with
  | c :: s' => if in_company_class c then c :: class_run s' else []
  | [] => []
  end.

Definition class_plus (s : jsstring) : option jsstring :=
  match class_run s with
  | [] => None
  | r => Some r
  end.

(** After at least one white space has been consumed by [\s+]. *)
Fixpoint ws_more_then_class (s : jsstring) : option jsstring :=
  match s with
  | c :: s' =>
      if is_ws c
      then match ws_more_then_class s' with
           | Some r => Some r
           | None => class_plus s
           end
      else class_plus s
  | [] => class_plus s
  end.

Definition companyMatchAt (s : jsstring) : option jsstring :=
  match s with
  | a :: t :: w :: s' =>
      if ci_eq 97 a && ci_eq 116 t && is_ws w then ws_more_then_class s' else None
  | _ => None
  end.

Fixpoint companyMatch (s : jsstring) : option jsstring :=
  match companyMatchAt s with
  | Some g => Some g
  | None => match s with
            | [] => None
            | _ :: s' => companyMatch s'
            end
  end.

Inductive Response :=
| Status200 (parsedInput : value) (generated : Email)
| Status500 (err : error).

Definition object (kvs : list (jsstring * value)) : value :=
  VObject (list_to_map kvs).

Definition str (s : string) : value := VString (lit s).

(** The free-text branch: [inputData] from the two matches. *)
Definition freeTextData (userInput : jsstring) : value :=
  object
    [(lit "name", str "Candidate");
     (lit "hrEmail", str "hr@company.com");
     (lit "jobRole",
       match jobRoleMatch userInput with
       | Some m => VString m
       | None => str "Software Engineer"
       end);
     (lit "company",
       match companyMatch userInput with
       | Some g => VString (trim g)
       | None => str "the company"
       end);
     (lit "education", str "B.Tech in Computer Science");
     (lit "skills", str "React, Node.js, and modern web development");
     (lit "location", str "India")].

(** The default the structured branch writes after [||] for each field. *)
Definition routeDefaults : list (jsstring * value) :=
  [(lit "name", str "Candidate");
   (lit "hrName", str "HR");
   (lit "hrEmail", str "hr@company.com");
   (lit "jobRole", str "Software Engineer");
   (lit "company", str "the company");
   (lit "companyPhone", VString []);
   (lit "userEmail", str "candidate@email.com");
   (lit "userPhone", VString []);
   (lit "education", str "B.Tech in Computer Science");
   (lit "skills", str "JavaScript, React, Node.js");
   (lit "location", str "India")].

(** The structured branch: [field: body.field || default], field by field. *)
Fixpoint structuredEntries (body : value) (fields : list (jsstring * value))
  : completion (list (jsstring * value)) :=
  match fields with
  | [] => Normal []
  | (k, d) :: fields' =>
      x <- get_prop body k;;
      rest <- structuredEntries body fields';;
      Normal ((k, or_else x d) :: rest)
  end.

Definition normalize (body : value) : completion value :=
  freeText <-
    (if is_string body then Normal true
     else (i <- get_prop body (lit "input");; Normal (truthy i)));;
  if freeText : bool then
    i <- get_prop body (lit "input");;
    match or_else i body with
    | VString userInput => Normal (freeTextData userInput)
    | _ => Throw TypeError
    end
  else
    entries <- structuredEntries body routeDefaults;;
    Normal (object entries).

(** The handler of [POST /generate]: anything thrown becomes a 500. *)
Definition postGenerate (genAI : GenAI) (body : value) : Response :=
  match (inputData <- normalize body;;
         emailData <- generateEmail genAI inputData;;
         Normal (inputData, emailData)) with
  | Normal (inputData, emailData) => Status200 inputData emailData
  | Throw e => Status500 e
  end.

End Service.

(** ** A runtime to run the model on ASCII examples

    Its [toLowerCase] is the ASCII one, its [ToString] converts the
    primitives that have a fixed spelling, and its [JSON.parse] rejects
    every text, so a model answer is read through its structured result. *)

Definition asciiToString (v : value) : completion jsstring :=
  match v with
  | VString s => Normal s
  | VUndefined => Normal (lit "undefined")
  | VNull => Normal (lit "null")
  | VBool true => Normal (lit "true")
  | VBool false => Normal (lit "false")
  | _ => Throw TypeError
  end.

Definition asciiRuntime : Runtime :=
  {| toLowerCase := fmap ascii_lower;
     JSON_parse := fun _ => Throw SyntaxError;
     ToString := asciiToString;
     ToString_string := fun s => eq_refl;
     toLowerCase_ascii := fun s _ => eq_refl |}.

(** ** Vocabulary of the statements *)

Definition all_ws (s : jsstring) : bool := forallb is_ws s.

Definition no_ws (s : jsstring) : bool := forallb (fun c => negb (is_ws c)) s.

(** No two white-space units in a row; with [prev = true], no white space
    at the front either. *)
Fixpoint spaced (prev : bool) (s : jsstring) : bool :=
  match s with
  | [] => true
  | c :: s' => negb (prev && is_ws c) && spaced (is_ws c) s'
  end.

Fixpoint is_prefix (p s : jsstring) : bool :=
  match p, s with
  | [], _ => true
  | x :: p', y :: s' => (x =? y)%N && is_prefix p' s'
  | _ :: _, [] => false
  end.

(** [hay.includes(needle)] *)
Fixpoint includes (needle hay : jsstring) : bool :=
  is_prefix needle hay
  || match hay with
     | [] => false
     | _ :: hay' => includes needle hay'
     end.

(** The field of a payload, [undefined] when it cannot be read. *)
Definition prop (v : value) (k : jsstring) : value :=
  match get_prop v k with
  | Normal x => x
  | Throw _ => VUndefined
  end.

Inductive Field :=
| FName | FUserEmail | FUserPhone | FHrName | FHrEmail | FJobRole
| FCompany | FCompanyPhone | FEducation | FSkills | FLocation.

Definition fieldKey (f : Field) : jsstring :=
  match f with
  | FName => lit "name"
  | FUserEmail => lit "userEmail"
  | FUserPhone => lit "userPhone"
  | FHrName => lit "hrName"
  | FHrEmail => lit "hrEmail"
  | FJobRole => lit "jobRole"
  | FCompany => lit "company"
  | FCompanyPhone => lit "companyPhone"
  | FEducation => lit "education"
  | FSkills => lit "skills"
  | FLocation => lit "location"
  end.

Definition safeOf (f : Field) (c : SafeVars) : jsstring :=
  match f with
  | FName => safeName c
  | FUserEmail => safeUserEmail c
  | FUserPhone => safeUserPhone c
  | FHrName => safeHrName c
  | FHrEmail => safeHrEmail c
  | FJobRole => safeJobRole c
  | FCompany => safeCompany c
  | FCompanyPhone => safeCompanyPhone c
  | FEducation => safeEducation c
  | FSkills => safeSkills c
  | FLocation => safeLocation c
  end.

(** What a call returned, when it did not throw. *)
Definition returned {A : Type} (r : completion A) : option A :=
  match r with
  | Normal a => Some a
  | Throw _ => None
  end.

(** An oracle whose every call fails, and one that answers every call with
    a fixed structured result. *)
Definition unreachable : GenAI := fun _ _ => CallThrows.

Definition answering (subj bdy : jsstring) : GenAI :=
  fun _ _ =>
    CallReturns [] (VObject {[ lit "subject" := VString subj; lit "body" := VString bdy ]}).

(** The variables bound from an object, and from a string or any other
    input without properties. *)
Definition own (m : gmap (list N) value) (k : string) : value :=
  default VUndefined (m !! lit k).

Definition objectVars (m : gmap (list N) value) : Vars :=
  {| name := own m "name";
     userEmail := own m "userEmail";
     userPhone := own m "userPhone";
     hrName := with_default (own m "hrName") (lit "HR Manager");
     hrEmail := own m "hrEmail";
     jobRole := own m "jobRole";
     company := own m "company";
     companyPhone := own m "companyPhone";
     education := with_default (own m "education") (lit "B.Tech in Computer Science");
     skills := with_default (own m "skills")
                 (lit "Java, Python, JavaScript, React, and Node.js");
     location := with_default (own m "location") (lit "Bangalore, India") |}.

Definition defaultContext : SafeVars :=
  {| safeHrEmail := lit "hr@company.com";
     safeUserEmail := lit "example@email.com";
     safeUserPhone := lit "+91-XXXXXXXXXX";
     safeCompany := lit "the company";
     safeHrName := lit "HR Manager";
     safeName := lit "Candidate";
     safeJobRole := lit "Software Engineer";
     safeLocation := lit "Bangalore, India";
     safeEducation := lit "B.Tech in Computer Science";
     safeSkills := lit "Java, Python, JavaScript, React, and Node.js";
     safeCompanyPhone := lit "N/A" |}.

(** The fields in the order of the structured branch, and the default each
    takes there. *)
Definition routeFields : list Field :=
  [FName; FHrName; FHrEmail; FJobRole; FCompany; FCompanyPhone;
   FUserEmail; FUserPhone; FEducation; FSkills; FLocation].

Definition routeDefault (f : Field) : value :=
  match f with
  | FName => str "Candidate"
  | FHrName => str "HR"
  | FHrEmail => str "hr@company.com"
  | FJobRole => str "Software Engineer"
  | FCompany => str "the company"
  | FCompanyPhone => VString []
  | FUserEmail => str "candidate@email.com"
  | FUserPhone => VString []
  | FEducation => str "B.Tech in Computer Science"
  | FSkills => str "JavaScript, React, Node.js"
  | FLocation => str "India"
  end.

(** An object with one entry per field of the structured branch. *)
Definition fieldsMap (xs : Field -> value) : gmap (list N) value :=
  list_to_map ((fun f => (fieldKey f, xs f)) <$> routeFields).

(** What the structured branch makes of a payload. *)
Definition structuredValue (body : value) (f : Field) : value :=
  or_else (prop body (fieldKey f)) (routeDefault f).

Definition structuredData (body : value) : value :=
  VObject (fieldsMap (structuredValue body)).

Definition parsedInputOf (r : Response) : option value :=
  match r with
  | Status200 p _ => Some p
  | Status500 _ => None
  end.

Definition generatedOf (r : Response) : option Email :=
  match r with
  | Status200 _ e => Some e
  | Status500 _ => None
  end.

(** The payload of the end-to-end scenario. *)
Definition ashaBody : value :=
  object [(lit "name", str "Asha");
          (lit "jobRole", str "Backend Developer");
          (lit "company", str "Acme");
          (lit "userEmail", str "asha@x.com")].

(** The object of the free-text branch, whatever the two matches gave. *)
Definition freeTextMap (j c : value) : gmap (list N) value :=
  list_to_map
    [(lit "name", str "Candidate");
     (lit "hrEmail", str "hr@company.com");
     (lit "jobRole", j);
     (lit "company", c);
     (lit "education", str "B.Tech in Computer Science");
     (lit "skills", str "React, Node.js, and modern web development");
     (lit "location", str "India")].

(** The variables bound from a string input. *)
Definition stringVars : Vars := objectVars ∅.

(** The text of the free-text scenario. *)
Definition initechText : jsstring := lit "Apply for backend developer at Initech".

(** A generated subject of 95 units whose 87th unit is a space, and one of
    95 units without any space. *)
Definition spacedSubject95 : jsstring :=
  replicate 86 97%N ++ lit " " ++ replicate 8 98%N.

Definition plainSubject95 : jsstring := replicate 95 97%N.

(** Inputs on which the statements are tried. *)
Definition longRoleInput : value :=
  object [(lit "jobRole", VString (replicate 100 120%N))].

Definition emptyCompanyInput : value :=
  object [(lit "company", VString [])].

Definition trueNameBody : value :=
  object [(lit "name", VBool true)].

Definition emptyBodyContext : SafeVars :=
  {| safeHrEmail := lit "hr@company.com";
     safeUserEmail := lit "candidate@email.com";
     safeUserPhone := [];
     safeCompany := lit "the company";
     safeHrName := lit "HR";
     safeName := lit "Candidate";
     safeJobRole := lit "Software Engineer";
     safeLocation := lit "India";
     safeEducation := lit "B.Tech in Computer Science";
     safeSkills := lit "JavaScript, React, Node.js";
     safeCompanyPhone := [] |}.

(** Every white-space unit is the space U+0020. *)
Definition only_spaces (s : jsstring) : bool :=
  forallb (fun c => negb (is_ws c) || (c =? 32)%N) s.

(** No white space at the front. *)
Definition head_ok (s : jsstring) : bool :=
  match s with
  | c :: _ => negb (is_ws c)
  | [] => true
  end.

(** No white space at the back. *)
Definition last_ok (s : jsstring) : bool :=
  match last s with
  | Some c => negb (is_ws c)
  | None => true
  end.

(** The constants resolved when the extraction answers without any of the
    four fields. *)
Definition extractedDefaultContext : SafeVars :=
  {| safeHrEmail := lit "hr@thecompany.com";
     safeUserEmail := lit "example@email.com";
     safeUserPhone := lit "+91-XXXXXXXXXX";
     safeCompany := lit "the company";
     safeHrName := lit "HR Manager";
     safeName := lit "Candidate";
     safeJobRole := lit "Software Engineer";
     safeLocation := lit "India";
     safeEducation := lit "B.Tech in Computer Science";
     safeSkills := lit "Java, Python, JavaScript, React, and Node.js";
     safeCompanyPhone := lit "N/A" |}.


Definition rawTextMap : gmap (list N) value :=
  list_to_map [(lit "rawText", str "Apply at Acme");
               (lit "userEmail", str " asha@x.com ")].

Definition extractedAnswer : value :=
  object [(lit "name", str "  Asha   K ")].

Definition extracting (text : jsstring) (parsed : value) : GenAI :=
  fun _ _ => CallReturns text parsed.

(** A client that fails the generation call and answers any other call. *)
Definition generationDown : GenAI :=
  fun params _ =>
    if bool_decide (model params = lit "gemini-2.5-flash")
    then CallThrows
    else CallReturns [] extractedAnswer.

(** * Facts *)

(** ** Strings *)

Lemma slice_0 (s : jsstring) (n : Z) :
  0 <= n -> slice s 0 n = take (Z.to_nat n) s.
Proof.
  intros Hn. unfold slice. cbv zeta.
  replace (0 <? 0) with false by reflexivity.
  replace (n <? 0) with false by (symmetry; apply Z.ltb_ge; lia).
  rewrite (Z.min_l 0) by lia. change (Z.to_nat 0) with 0%nat.
  rewrite drop_0, Z.sub_0_r.
  destruct (Z.le_ge_cases n (Z.of_nat (length s))) as [H|H].
  - by rewrite Z.min_l.
  - rewrite Z.min_r by lia. rewrite Nat2Z.id.
    rewrite !take_ge by lia. done.
Qed.

Lemma trimStart_length (s : jsstring) : (length (trimStart s) <= length s)%nat.
Proof. induction s as [|c s IH]; simpl; [lia|]. destruct (is_ws c); simpl; lia. Qed.

Lemma trimEnd_length (s : jsstring) : (length (trimEnd s) <= length s)%nat.
Proof.
  induction s as [|c s IH]; simpl; [lia|].
  destruct (trimEnd s); [destruct (is_ws c)|]; simpl in *; lia.
Qed.

Lemma trim_length (s : jsstring) : (length (trim s) <= length s)%nat.
Proof.
  unfold trim. pose proof (trimEnd_length (trimStart s)).
  pose proof (trimStart_length s). lia.
Qed.

Lemma trimEnd_snoc (l : jsstring) (c : N) :
  trimEnd (l ++ [c]) = if is_ws c then trimEnd l else l ++ [c].
Proof.
  induction l as [|x l IH]; simpl.
  - by destruct (is_ws c).
  - rewrite IH. destruct (is_ws c); [done|]. by destruct l.
Qed.

Lemma trimEnd_no_ws_last (l : jsstring) (c : N) :
  is_ws c = false -> trimEnd (l ++ [c]) = l ++ [c].
Proof. intros H. by rewrite trimEnd_snoc, H. Qed.

Lemma trimEnd_nil (s : jsstring) : trimEnd s = [] <-> all_ws s = true.
Proof.
  induction s as [|c s IH]; simpl; [done|].
  destruct (trimEnd s) eqn:E.
  - destruct (is_ws c); simpl; [tauto|]. split; discriminate.
  - split; [discriminate|]. intros [_ H]%andb_prop.
    apply IH in H. discriminate.
Qed.

Lemma trimStart_all_ws (s : jsstring) : all_ws (trimStart s) = all_ws s.
Proof.
  induction s as [|c s IH]; simpl; [done|].
  destruct (is_ws c) eqn:E; simpl; [done|]. by rewrite E.
Qed.

Lemma trim_nil (s : jsstring) : trim s = [] <-> all_ws s = true.
Proof. unfold trim. by rewrite trimEnd_nil, trimStart_all_ws. Qed.

Lemma replace_ws_all_ws (b : bool) (s : jsstring) :
  all_ws (replace_ws_from b (lit " ") s) = all_ws s.
Proof.
  revert b. induction s as [|c s IH]; intros b; simpl; [done|].
  destruct (is_ws c) eqn:E; simpl.
  - destruct b; simpl; apply IH.
  - by rewrite E.
Qed.

Lemma sanitizeString_nil (s : jsstring) :
  sanitizeString s = [] <-> all_ws s = true.
Proof. unfold sanitizeString, replace_ws. by rewrite trim_nil, replace_ws_all_ws. Qed.

Lemma replace_ws_no_ws (b : bool) (rep s : jsstring) :
  no_ws s = true -> replace_ws_from b rep s = s.
Proof.
  revert b. induction s as [|c s IH]; intros b; simpl; [done|].
  intros [Hc Hs]%andb_prop. apply negb_true_iff in Hc. rewrite Hc.
  by rewrite IH.
Qed.

Lemma trimStart_no_ws (s : jsstring) : no_ws s = true -> trimStart s = s.
Proof.
  destruct s as [|c s]; simpl; [done|].
  intros [Hc _]%andb_prop. apply negb_true_iff in Hc. by rewrite Hc.
Qed.

Lemma trimEnd_no_ws (s : jsstring) : no_ws s = true -> trimEnd s = s.
Proof.
  induction s as [|c s IH]; simpl; [done|].
  intros [Hc Hs]%andb_prop. apply negb_true_iff in Hc.
  rewrite IH by done. rewrite Hc. by destruct s.
Qed.

Lemma sanitizeString_no_ws (s : jsstring) :
  no_ws s = true -> sanitizeString s = s.
Proof.
  intros H. unfold sanitizeString, replace_ws, trim.
  rewrite replace_ws_no_ws by done.
  rewrite trimStart_no_ws by done. by apply trimEnd_no_ws.
Qed.

Lemma replace_ws_empty (b : bool) (s : jsstring) :
  replace_ws_from b [] s = filter (fun c => is_ws c = false) s.
Proof.
  revert b. induction s as [|c s IH]; intros b; simpl; [done|].
  rewrite filter_cons. case_decide as E.
  - rewrite E. by rewrite IH.
  - destruct (is_ws c); [|done]. destruct b; simpl; apply IH.
Qed.

Lemma no_ws_filter (s : jsstring) :
  no_ws (filter (fun c => is_ws c = false) s) = true.
Proof.
  induction s as [|c s IH]; simpl; [done|].
  rewrite filter_cons. case_decide as E; [|done].
  simpl. by rewrite E, IH.
Qed.

Lemma no_ws_app (s t : jsstring) :
  no_ws (s ++ t) = no_ws s && no_ws t.
Proof. apply forallb_app. Qed.

(** ** The shape of a sanitized string *)

Lemma spaced_weaken (b : bool) (s : jsstring) :
  spaced true s = true -> spaced b s = true.
Proof. destruct s as [|c s]; simpl; [done|]. destruct b, (is_ws c); simpl; done. Qed.

Lemma replace_ws_spaced (b : bool) (s : jsstring) :
  spaced b (replace_ws_from b (lit " ") s) = true.
Proof.
  revert b. induction s as [|c s IH]; intros b; simpl; [done|].
  destruct (is_ws c) eqn:E.
  - destruct b; simpl; [apply IH|].
    change (is_ws 32) with true. simpl. apply (IH true).
  - simpl. rewrite E, andb_false_r. simpl. apply (IH false).
Qed.

Lemma trimStart_spaced (s : jsstring) :
  spaced false s = true -> spaced true (trimStart s) = true.
Proof.
  induction s as [|c s IH]; simpl; [done|].
  destruct (is_ws c) eqn:E; simpl.
  - intros H. apply IH. by apply spaced_weaken.
  - by rewrite E.
Qed.

Lemma trimEnd_spaced (b : bool) (s : jsstring) :
  spaced b s = true -> spaced b (trimEnd s) = true.
Proof.
  revert b. induction s as [|c s IH]; intros b; simpl; [done|].
  intros [Hc Hs]%andb_prop. apply IH in Hs.
  destruct (trimEnd s) as [|d r].
  - destruct (is_ws c) eqn:E; simpl; [done|]. by rewrite E, andb_false_r.
  - change (spaced b (c :: d :: r))
      with (negb (b && is_ws c) && spaced (is_ws c) (d :: r)).
    by rewrite Hc, Hs.
Qed.

Lemma sanitizeString_spaced (s : jsstring) :
  spaced true (sanitizeString s) = true.
Proof.
  unfold sanitizeString, trim, replace_ws.
  apply trimEnd_spaced, trimStart_spaced, replace_ws_spaced.
Qed.

Lemma spaced_no_pair (b : bool) (s : jsstring) (i : nat) (x y : N) :
  spaced b s = true -> s !! i = Some x -> s !! S i = Some y ->
  is_ws y = true -> is_ws x = false.
Proof.
  revert b i. induction s as [|c s IH]; intros b i; [done|].
  simpl. intros [_ Hs]%andb_prop. destruct i as [|i]; simpl.
  - intros [= ->]. destruct s as [|d s]; [done|]. simpl in *.
    intros [= ->] Hy. rewrite Hy, andb_true_r in Hs.
    apply andb_prop in Hs as [Hs _]. by apply negb_true_iff in Hs.
  - intros Hx Hy. by apply (IH (is_ws c) i).
Qed.

Lemma spaced_head (s : jsstring) (x : N) :
  spaced true s = true -> s !! 0%nat = Some x -> is_ws x = false.
Proof.
  destruct s as [|c s]; [done|]. simpl. intros [Hc _]%andb_prop [= ->].
  by apply negb_true_iff in Hc.
Qed.

Lemma trimStart_take_spaced (s : jsstring) (n : nat) :
  spaced true s = true -> trimStart (take n s) = take n s.
Proof.
  destruct s as [|c s]; [by rewrite take_nil|].
  intros Hs. destruct n as [|n]; [done|]. simpl.
  by rewrite (spaced_head (c :: s) c Hs).
Qed.

Lemma trimEnd_take_spaced (s : jsstring) (n : nat) (x : N) :
  spaced true s = true -> s !! n = Some x -> is_ws x = true ->
  trimEnd (take n s) = take n s.
Proof.
  intros Hs Hx Hws. destruct n as [|n]; [by rewrite take_0|].
  destruct (lookup_lt_is_Some_2 s n) as [y Hy].
  { apply lookup_lt_Some in Hx. lia. }
  rewrite (take_S_r _ _ _ Hy). apply trimEnd_no_ws_last.
  by eapply spaced_no_pair.
Qed.

(** Cutting a sanitized string after [n + 1] units and trimming the cut
    drops at most the last unit, and only when it is a space. *)
Lemma trim_take_spaced (s : jsstring) (n : nat) (x : N) :
  spaced true s = true -> s !! n = Some x ->
  trim (take (S n) s) = if is_ws x then take n s else take (S n) s.
Proof.
  intros Hs Hx. unfold trim. rewrite trimStart_take_spaced by done.
  rewrite (take_S_r _ _ _ Hx), trimEnd_snoc.
  destruct (is_ws x) eqn:E; [|done]. by eapply trimEnd_take_spaced.
Qed.

(** ** The composer *)

Section Composer.
Context {R : Runtime}.

Lemma toPlainMultiline_string (bdy : jsstring) :
  toPlainMultiline (VString bdy) = Normal (trim (replace_crlf bdy)).
Proof.
  unfold toPlainMultiline, or_else. simpl.
  case_bool_decide as E; simpl; rewrite ToString_string; simpl; [by subst|done].
Qed.

Lemma tryGenerate_fields (genAI : GenAI) (c : SafeVars) (raw bdy : jsstring) :
  generatedFields genAI c = Normal (raw, bdy) ->
  tryGenerate genAI c =
    Normal {| subject := finalSubject (sanitizeString raw);
              body := trim (replace_crlf bdy) |}.
Proof.
  intros H. unfold tryGenerate, postProcess. rewrite H. simpl.
  by rewrite toPlainMultiline_string.
Qed.

Lemma tryGenerate_throws (genAI : GenAI) (c : SafeVars) (e : error) :
  generatedFields genAI c = Throw e -> tryGenerate genAI c = Throw e.
Proof. intros H. unfold tryGenerate. by rewrite H. Qed.

Lemma compose_fallback (genAI : GenAI) (c : SafeVars) (e : error) :
  generatedFields genAI c = Throw e -> compose genAI c = fallback c.
Proof. intros H. unfold compose. by rewrite (tryGenerate_throws _ _ _ H). Qed.

Lemma finalSubject_long (s : jsstring) :
  (90 < length s)%nat -> finalSubject s = trim (take 87 s) ++ lit "...".
Proof.
  intros H. unfold finalSubject.
  replace (90 <? Z.of_nat (length s)) with true by (symmetry; apply Z.ltb_lt; lia).
  by rewrite slice_0.
Qed.

Lemma finalSubject_short (s : jsstring) :
  (length s <= 90)%nat -> finalSubject s = s.
Proof.
  intros H. unfold finalSubject.
  by replace (90 <? Z.of_nat (length s)) with false by (symmetry; apply Z.ltb_ge; lia).
Qed.

Lemma finalSubject_length (s : jsstring) : (length (finalSubject s) <= 90)%nat.
Proof.
  destruct (le_lt_dec (length s) 90) as [H|H].
  - by rewrite finalSubject_short.
  - rewrite finalSubject_long by done. rewrite length_app.
    pose proof (trim_length (take 87 s)) as Ht. rewrite length_take in Ht.
    change (length (lit "...")) with 3%nat. lia.
Qed.

Lemma generateEmail_resolved (genAI : GenAI) (input : value) (c : SafeVars) :
  resolveContext genAI input = Normal c ->
  generateEmail genAI input = Normal (compose genAI c).
Proof. intros H. unfold generateEmail. by rewrite H. Qed.

(** Without raw text the resolved constants do not depend on the model. *)
Lemma resolveContext_structured (g1 g2 : GenAI) (input : value) :
  rawTextOf input = Normal None ->
  resolveContext g1 input = resolveContext g2 input.
Proof.
  intros H. unfold resolveContext, extractionPhase. rewrite H. done.
Qed.

(** *** C1 *)

(** C1 (as the code has it). When the model's answer passes validation, the
    returned subject is the sanitized generated subject capped by
    [finalSubject]: it has at most 90 units; a sanitized subject of more
    than 90 units is cut to its first 87 units, the cut is trimmed, and
    three dots are appended; a shorter one is returned as it is. When the
    generation fails, the returned subject is the template
    "Application for <role> - <name>" whole, whatever its length. *)
Theorem C1_subject_cap (genAI : GenAI) (input : value) (c : SafeVars) :
  resolveContext genAI input = Normal c ->
  (forall raw bdy, generatedFields genAI c = Normal (raw, bdy) ->
     exists e, generateEmail genAI input = Normal e
       /\ (length (subject e) <= 90)%nat
       /\ ((90 < length (sanitizeString raw))%nat ->
            subject e = trim (take 87 (sanitizeString raw)) ++ lit "...")
       /\ ((length (sanitizeString raw) <= 90)%nat ->
            subject e = sanitizeString raw))
  /\ (forall err, generatedFields genAI c = Throw err ->
        exists e, generateEmail genAI input = Normal e
          /\ subject e = lit "Application for " ++ safeJobRole c ++ lit " "
                           ++ en_dash ++ lit " " ++ safeName c).
Proof.
  intros Hc. split.
  - intros raw bdy Hg. eexists. split.
    { rewrite (generateEmail_resolved _ _ _ Hc). unfold compose.
      by rewrite (tryGenerate_fields _ _ _ _ Hg). }
    simpl. split; [apply finalSubject_length|].
    split; [apply finalSubject_long | apply finalSubject_short].
  - intros err Hg. eexists. split.
    { rewrite (generateEmail_resolved _ _ _ Hc).
      by rewrite (compose_fallback _ _ _ Hg). }
    done.
Qed.

(** *** C9 *)

(** C9 (as the code has it). For a sanitized generated subject of exactly 95
    units, the returned subject is its first 87 units followed by three
    dots, 90 units in all, unless the 87th unit is a space: the trim after
    the cut then removes it, and the returned subject is the first 86 units
    followed by three dots, 89 units in all. *)
Theorem C9_subject_95 (genAI : GenAI) (input : value) (c : SafeVars)
    (raw bdy : jsstring) (x : N) :
  resolveContext genAI input = Normal c ->
  generatedFields genAI c = Normal (raw, bdy) ->
  length (sanitizeString raw) = 95%nat ->
  sanitizeString raw !! 86%nat = Some x ->
  exists e, generateEmail genAI input = Normal e
    /\ (is_ws x = false ->
          subject e = take 87 (sanitizeString raw) ++ lit "..."
          /\ length (subject e) = 90%nat)
    /\ (is_ws x = true ->
          subject e = take 86 (sanitizeString raw) ++ lit "..."
          /\ length (subject e) = 89%nat).
Proof.
  intros Hc Hg Hlen Hx. eexists. split.
  { rewrite (generateEmail_resolved _ _ _ Hc). unfold compose.
    by rewrite (tryGenerate_fields _ _ _ _ Hg). }
  simpl. rewrite finalSubject_long by lia.
  rewrite (trim_take_spaced _ 86 x) by auto using sanitizeString_spaced.
  split; intros ->; (split; [done|]);
    rewrite length_app, length_take, Hlen; reflexivity.
Qed.

(** *** C8 *)

(** C8. Two runs of [generateEmail] on the same context (an input without
    raw text) whose generation both fail return the same pair, the fallback
    built from the resolved constants. *)
Theorem C8_fallback_deterministic (g1 g2 : GenAI) (input : value)
    (c1 c2 : SafeVars) (e1 e2 : error) :
  rawTextOf input = Normal None ->
  resolveContext g1 input = Normal c1 ->
  resolveContext g2 input = Normal c2 ->
  generatedFields g1 c1 = Throw e1 ->
  generatedFields g2 c2 = Throw e2 ->
  generateEmail g1 input = generateEmail g2 input
  /\ generateEmail g1 input = Normal (fallback c1).
Proof.
  intros Hraw H1 H2 F1 F2.
  rewrite (resolveContext_structured g1 g2 _ Hraw), H2 in H1.
  injection H1 as ->.
  rewrite (generateEmail_resolved _ _ _ H2).
  rewrite (generateEmail_resolved g1 _ c1).
  - by rewrite (compose_fallback _ _ _ F1), (compose_fallback _ _ _ F2).
  - by rewrite (resolveContext_structured g1 g2 _ Hraw).
Qed.

(** *** C10 *)

(** C10. [generateEmail(null)] throws a TypeError whatever the model would
    answer, at the read of [input.rawText] that chooses what to destructure.
    [generateEmail(undefined)] does not throw: it behaves as on the empty
    object, every constant takes its default, and a failing generation
    gives the fallback email of these defaults. *)
Theorem C10_null_input (genAI : GenAI) :
  generateEmail genAI VNull = Throw TypeError
  /\ resolveContext genAI VUndefined = Normal defaultContext
  /\ generateEmail genAI VUndefined = generateEmail genAI (VObject ∅)
  /\ generateEmail genAI VUndefined = Normal (compose genAI defaultContext)
  /\ generateEmail unreachable VUndefined = Normal (fallback defaultContext).
Proof. repeat split; reflexivity. Qed.

(** *** C4 *)

Lemma tryExtract_throws (genAI : GenAI) (rawText : jsstring) (v : Vars) (e : error) :
  snd (tryExtract genAI rawText v) = Throw e ->
  fst (tryExtract genAI rawText v) = v.
Proof.
  unfold tryExtract. destruct (genAI _ _) as [|text parsed]; [done|].
  destruct (if truthy parsed then _ else _) as [pe|]; [|done].
  destruct pe; simpl; done.
Qed.

Lemma resolveContext_string (genAI : GenAI) (s : jsstring) :
  resolveContext genAI (VString s) =
    match tryExtract genAI s stringVars with
    | (v', Normal _) => Normal (prepareSafe v')
    | (v', Throw _) => Normal (prepareSafe (extractionDefaults v'))
    end.
Proof.
  unfold resolveContext, extractionPhase. simpl.
  assert (destructure (or_else (VString s) (VObject ∅)) = Normal stringVars) as ->.
  { unfold or_else. simpl. by case_bool_decide. }
  simpl. rewrite ToString_string. simpl.
  by destruct (tryExtract genAI s stringVars) as [v' [[]|]].
Qed.

(** C4 (what the code does). On a string input, a failure anywhere in the
    extraction [try] block is caught; [generateEmail] goes on and returns;
    [name], [jobRole] and [company] take "Candidate", "Software Engineer"
    and "the company". [location] does not take "India": the destructuring
    default "Bangalore, India" is already in place, so [location ||= "India"]
    assigns nothing. *)
Theorem C4_extraction_failure (genAI : GenAI) (s : jsstring) (e : error) :
  snd (tryExtract genAI s stringVars) = Throw e ->
  exists c, resolveContext genAI (VString s) = Normal c
    /\ generateEmail genAI (VString s) = Normal (compose genAI c)
    /\ safeName c = lit "Candidate"
    /\ safeJobRole c = lit "Software Engineer"
    /\ safeCompany c = lit "the company"
    /\ safeLocation c = lit "Bangalore, India".
Proof.
  intros H. pose proof (tryExtract_throws _ _ _ _ H) as Hv.
  pose proof (resolveContext_string genAI s) as Hr.
  destruct (tryExtract genAI s stringVars) as [v' r]. simpl in *. subst.
  eexists. split; [exact Hr|]. split; [by apply generateEmail_resolved|].
  repeat split; reflexivity.
Qed.

(** *** C7 *)

Lemma sanitize_derived (d : jsstring) :
  sanitizeString (lit "hr@" ++ filter (fun u => is_ws u = false) d ++ lit ".com")
  = lit "hr@" ++ filter (fun u => is_ws u = false) d ++ lit ".com".
Proof.
  apply sanitizeString_no_ws. rewrite !no_ws_app, no_ws_filter. reflexivity.
Qed.

(** C7 (as the code has it). When [hrEmail] is absent or falsy, the HR email
    of the prompt is "hr@" followed by the company name, lowercased and with
    all white space removed, followed by ".com", provided the company is a
    non-empty string; for "Example Corp" it is "hr@examplecorp.com". When
    the company is absent, not a string, or the empty string, it is
    "hr@company.com". *)
Theorem C7_derived_hr_email (v : Vars) :
  truthy (hrEmail v) = false ->
  safeHrEmail (prepareSafe v) =
    match company v with
    | VString (x :: c) =>
        lit "hr@" ++ filter (fun u => is_ws u = false) (toLowerCase (x :: c))
        ++ lit ".com"
    | _ => lit "hr@company.com"
    end
  /\ (company v = VString (lit "Example Corp") ->
      safeHrEmail (prepareSafe v) = lit "hr@examplecorp.com").
Proof.
  intros H.
  assert (safeHrEmail (prepareSafe v) = sanitizeString (deriveHrEmail (company v))) as ->.
  { unfold prepareSafe, or_else. simpl. by rewrite H. }
  split.
  - destruct (company v) as [| | | |[|x c]| |]; try reflexivity.
    unfold deriveHrEmail, replace_ws. simpl negb.
    rewrite replace_ws_empty. apply sanitize_derived.
  - intros ->. unfold deriveHrEmail, replace_ws. simpl negb.
    rewrite replace_ws_empty, sanitize_derived.
    rewrite toLowerCase_ascii; [reflexivity|].
    repeat constructor.
Qed.

End Composer.

(** ** The route *)

Section Route.
Context {R : Runtime}.

Lemma routeDefaults_fields :
  routeDefaults = (fun f => (fieldKey f, routeDefault f)) <$> routeFields.
Proof. reflexivity. Qed.

Lemma fieldsMap_lookup (xs : Field -> value) (f : Field) :
  fieldsMap xs !! fieldKey f = Some (xs f).
Proof. destruct f; vm_compute; reflexivity. Qed.

Lemma fieldsMap_rawText (xs : Field -> value) :
  fieldsMap xs !! lit "rawText" = None.
Proof. vm_compute; reflexivity. Qed.

Lemma get_prop_normal (v i : value) (k0 k : jsstring) :
  get_prop v k0 = Normal i -> get_prop v k = Normal (prop v k).
Proof. unfold prop. by destruct v. Qed.

Lemma structuredEntries_normal (body i : value) (k0 : jsstring) (fs : list Field) :
  get_prop body k0 = Normal i ->
  structuredEntries body ((fun f => (fieldKey f, routeDefault f)) <$> fs)
  = Normal ((fun f => (fieldKey f, structuredValue body f)) <$> fs).
Proof.
  intros H. induction fs as [|f fs IH]; [done|].
  rewrite !fmap_cons. cbn [structuredEntries].
  rewrite (get_prop_normal _ _ _ (fieldKey f) H). simpl. by rewrite IH.
Qed.

Lemma normalize_structured (body i : value) :
  is_string body = false ->
  get_prop body (lit "input") = Normal i ->
  truthy i = false ->
  normalize body = Normal (structuredData body).
Proof.
  intros Hs Hi Ht. unfold normalize. rewrite Hs, Hi. cbn [bind]. rewrite Ht.
  rewrite routeDefaults_fields, (structuredEntries_normal _ _ _ _ Hi). done.
Qed.

Lemma resolveContext_object (genAI : GenAI) (m : gmap (list N) value) :
  truthy (own m "rawText") = false ->
  resolveContext genAI (VObject m) = Normal (prepareSafe (objectVars m)).
Proof.
  intros H. unfold own in H.
  unfold resolveContext, destructuringSource, extractionPhase, rawTextOf.
  simpl. by rewrite H.
Qed.

Lemma resolveContext_fieldsMap (genAI : GenAI) (xs : Field -> value) :
  resolveContext genAI (VObject (fieldsMap xs))
  = Normal (prepareSafe (objectVars (fieldsMap xs))).
Proof.
  apply resolveContext_object. unfold own. by rewrite fieldsMap_rawText.
Qed.

Lemma postGenerate_structured (genAI : GenAI) (body i : value) :
  is_string body = false ->
  get_prop body (lit "input") = Normal i ->
  truthy i = false ->
  postGenerate genAI body =
    Status200 (structuredData body)
      (compose genAI (prepareSafe (objectVars (fieldsMap (structuredValue body))))).
Proof.
  intros Hs Hi Ht. unfold postGenerate.
  rewrite (normalize_structured _ _ Hs Hi Ht). simpl.
  unfold structuredData.
  by rewrite (generateEmail_resolved _ _ _ (resolveContext_fieldsMap genAI _)).
Qed.

(** *** C5 *)

(** C5 (as the code has it). For a structured payload (not a string, no
    truthy [input]) the request succeeds and [parsedInput] maps each field
    to the payload's value when that value is truthy, string or not, and to
    the default of the branch when it is absent or falsy ([undefined],
    [null], [false], a zero, [NaN], the empty string). *)
Theorem C5_structured_fields (genAI : GenAI) (body i : value) :
  is_string body = false ->
  get_prop body (lit "input") = Normal i ->
  truthy i = false ->
  exists p e, postGenerate genAI body = Status200 p e
    /\ forall f : Field,
         prop p (fieldKey f) =
           if truthy (prop body (fieldKey f))
           then prop body (fieldKey f)
           else routeDefault f.
Proof.
  intros Hs Hi Ht. eexists _, _.
  split; [by apply (postGenerate_structured _ _ _ Hs Hi Ht)|].
  intros f. unfold prop at 1. simpl. by rewrite fieldsMap_lookup.
Qed.

(** *** C2 *)

Lemma sanitizeText_nil (v : value) (fb : jsstring) :
  fb <> [] ->
  sanitizeText v fb = [] <-> exists s, v = VString s /\ all_ws s = true.
Proof.
  intros Hfb. destruct v; simpl;
    try (split; [done | by intros (? & ? & ?)]).
  rewrite sanitizeString_nil. split; [by eauto|].
  by intros (? & [= <-] & ?).
Qed.

Lemma sanitizeText_default_nil (v : value) (d fb : jsstring) :
  fb <> [] -> all_ws d = false ->
  sanitizeText (with_default v d) fb = []
  <-> exists s, v = VString s /\ all_ws s = true.
Proof.
  intros Hfb Hd. destruct v; try apply (sanitizeText_nil _ _ Hfb).
  simpl. rewrite sanitizeString_nil, Hd. split; [done | by intros (? & ? & ?)].
Qed.

Lemma prop_object (m : gmap (list N) value) (k : jsstring) :
  prop (VObject m) k = default VUndefined (m !! k).
Proof. reflexivity. Qed.

(** The constants resolved from an object whose [hrEmail] is truthy: each
    is empty exactly when the object holds a white-space-only string for
    it. *)
Lemma resolved_empty_iff (m : gmap (list N) value) (f : Field) :
  truthy (own m "hrEmail") = true ->
  safeOf f (prepareSafe (objectVars m)) = []
  <-> exists s, prop (VObject m) (fieldKey f) = VString s /\ all_ws s = true.
Proof.
  intros Hhr. rewrite prop_object.
  destruct f; cbn [safeOf prepareSafe objectVars fieldKey
                   safeHrEmail safeUserEmail safeUserPhone safeCompany
                   safeHrName safeName safeJobRole safeLocation safeEducation
                   safeSkills safeCompanyPhone
                   name userEmail userPhone hrName hrEmail jobRole company
                   companyPhone education skills location];
    unfold own in *;
    try (apply sanitizeText_nil; by vm_compute);
    try (apply sanitizeText_default_nil; by vm_compute).
  unfold or_else. rewrite Hhr. apply sanitizeText_nil. by vm_compute.
Qed.

Lemma truthy_or_else (x d : value) : truthy d = true -> truthy (or_else x d) = true.
Proof. intros H. unfold or_else. by destruct (truthy x) eqn:E. Qed.

Lemma normalize_inv (body p : value) :
  normalize body = Normal p ->
  (exists u, p = freeTextData u) \/ p = structuredData body.
Proof.
  unfold normalize. destruct (is_string body) eqn:Hs.
  - destruct body; try discriminate. cbn [bind get_prop].
    unfold or_else. simpl. intros [= <-]. eauto.
  - destruct (get_prop body (lit "input")) as [i|] eqn:Hi; [|done].
    cbn [bind]. destruct (truthy i) eqn:Ht.
    + unfold or_else. rewrite Ht. destruct i; try done. intros [= <-]. eauto.
    + intros H. right.
      pose proof (normalize_structured _ _ Hs Hi Ht) as Hn.
      unfold normalize in Hn. rewrite Hs, Hi in Hn. cbn [bind] in Hn.
      rewrite Ht in Hn. congruence.
Qed.

Lemma postGenerate_inv (genAI : GenAI) (body p : value) (e : Email) :
  postGenerate genAI body = Status200 p e ->
  normalize body = Normal p /\ generateEmail genAI p = Normal e.
Proof.
  unfold postGenerate. destruct (normalize body) as [q|]; [|done]. simpl.
  destruct (generateEmail genAI q) as [e'|] eqn:E; simpl; [|done].
  intros [= -> ->]. done.
Qed.

Lemma freeTextMap_facts (j c : value) :
  own (freeTextMap j c) "rawText" = VUndefined
  /\ own (freeTextMap j c) "hrEmail" = str "hr@company.com"
  /\ own (freeTextMap j c) "jobRole" = j
  /\ own (freeTextMap j c) "company" = c.
Proof. repeat split; vm_compute; reflexivity. Qed.

(** C2 (as the code has it). For every request the route accepts, the
    eleven constants the prompt is built from are resolved (the composer
    does not throw), each is a string, and each is empty exactly when
    [parsedInput] holds for that field a string made of white space only,
    the empty string included, which is what the structured branch writes
    for an absent [userPhone] or [companyPhone]. A field that [parsedInput]
    lacks, or holds as anything else, gives a non-empty constant. *)
Theorem C2_resolved_fields (genAI : GenAI) (body p : value) (e : Email) :
  postGenerate genAI body = Status200 p e ->
  exists c, resolveContext genAI p = Normal c
    /\ e = compose genAI c
    /\ forall f : Field,
         safeOf f c = []
         <-> exists s, prop p (fieldKey f) = VString s /\ all_ws s = true.
Proof.
  intros [Hn He]%postGenerate_inv.
  assert (exists m, p = VObject m
            /\ truthy (own m "rawText") = false
            /\ truthy (own m "hrEmail") = true) as (m & -> & Hraw & Hhr).
  { apply normalize_inv in Hn as [[u ->] | ->].
    - eexists (freeTextMap _ _). split; [reflexivity|].
      destruct (freeTextMap_facts
                  (match jobRoleMatch u with
                   | Some m => VString m
                   | None => str "Software Engineer"
                   end)
                  (match companyMatch u with
                   | Some g => VString (trim g)
                   | None => str "the company"
                   end)) as (-> & -> & _). done.
    - eexists. split; [reflexivity|]. unfold own.
      rewrite fieldsMap_rawText. split; [done|].
      rewrite (fieldsMap_lookup _ FHrEmail). simpl.
      by apply truthy_or_else. }
  pose proof (resolveContext_object genAI m Hraw) as Hc.
  eexists. split; [exact Hc|]. split.
  - rewrite (generateEmail_resolved _ _ _ Hc) in He. congruence.
  - intros f. by apply resolved_empty_iff.
Qed.

(** *** C3 *)

Lemma generatedFields_call_throws (genAI : GenAI) (c : SafeVars) :
  genAI generatorParams (prompt c) = CallThrows ->
  generatedFields genAI c = Throw OtherError.
Proof. intros H. unfold generatedFields. by rewrite H. Qed.

(** C3 (as the code has it). The structured payload of Asha, with the
    generation failing, is answered with success; the subject is
    "Application for Backend Developer - Asha" (with an en dash) and the
    body contains "Acme" and "asha@x.com". The greeting is "Dear HR,": the
    structured branch fills an absent [hrName] with "HR". *)
Theorem C3_asha_scenario (genAI : GenAI) :
  (forall pr, genAI generatorParams pr = CallThrows) ->
  exists e, postGenerate genAI ashaBody = Status200 (structuredData ashaBody) e
    /\ subject e = lit "Application for Backend Developer " ++ en_dash ++ lit " Asha"
    /\ includes (lit "Dear HR,") (body e) = true
    /\ includes (lit "Acme") (body e) = true
    /\ includes (lit "asha@x.com") (body e) = true.
Proof.
  intros H. eexists. split.
  { by apply (postGenerate_structured genAI ashaBody VUndefined). }
  rewrite (compose_fallback _ _ OtherError)
    by apply generatedFields_call_throws, H.
  vm_compute. done.
Qed.

(** *** C6 *)

Lemma freeTextData_map (u : jsstring) :
  exists j c, freeTextData u = VObject (freeTextMap j c).
Proof. by eexists _, _. Qed.

Lemma postGenerate_freeText (genAI : GenAI) (body : value) (u : jsstring) :
  normalize body = Normal (freeTextData u) ->
  exists e, postGenerate genAI body = Status200 (freeTextData u) e.
Proof.
  intros Hn. unfold postGenerate. rewrite Hn. cbn [bind].
  destruct (freeTextData_map u) as (j & c & ->).
  rewrite (generateEmail_resolved _ _ (prepareSafe (objectVars (freeTextMap j c)))).
  - by eexists.
  - apply resolveContext_object.
    by destruct (freeTextMap_facts j c) as (-> & _).
Qed.

(** C6 (as the code has it). The free text
    "Apply for backend developer at Initech", sent as the body or as its
    [input] field, is accepted; [parsedInput.jobRole] is the matched keyword
    "developer" and [parsedInput.company] is "Initech". *)
Theorem C6_initech_scenario (genAI : GenAI) :
  (exists e, postGenerate genAI (VString initechText)
             = Status200 (freeTextData initechText) e)
  /\ (exists e, postGenerate genAI (object [(lit "input", VString initechText)])
                = Status200 (freeTextData initechText) e)
  /\ prop (freeTextData initechText) (lit "jobRole") = str "developer"
  /\ prop (freeTextData initechText) (lit "company") = str "Initech".
Proof.
  split; [by apply postGenerate_freeText|].
  split; [by apply postGenerate_freeText|].
  split; vm_compute; reflexivity.
Qed.

End Route.

(** * Further facts about the code *)

(** ** [sanitizeText], [toPlainMultiline], [deriveHrEmail] *)

Lemma trimStart_head_ok (s : jsstring) : head_ok (trimStart s) = true.
Proof.
  induction s as [|c s IH]; simpl; [done|].
  destruct (is_ws c) eqn:E; [done|]. simpl. by rewrite E.
Qed.

Lemma trimEnd_head_ok (s : jsstring) :
  head_ok s = true -> head_ok (trimEnd s) = true.
Proof.
  destruct s as [|c s]; simpl; [done|]. intros H.
  destruct (trimEnd s); [|done].
  destruct (is_ws c) eqn:E; [done|]. simpl. by rewrite E.
Qed.

Lemma trimEnd_last_ok (s : jsstring) : last_ok (trimEnd s) = true.
Proof.
  unfold last_ok. induction s as [|c s IH]; simpl; [done|].
  destruct (trimEnd s) as [|d r] eqn:E.
  - destruct (is_ws c) eqn:Ec; simpl; [done|]. by rewrite Ec.
  - by rewrite last_cons_cons.
Qed.

Lemma trimStart_id (s : jsstring) : head_ok s = true -> trimStart s = s.
Proof.
  destruct s as [|c s]; simpl; [done|].
  intros H. apply negb_true_iff in H. by rewrite H.
Qed.

Lemma trimEnd_id (s : jsstring) : last_ok s = true -> trimEnd s = s.
Proof.
  unfold last_ok. destruct s as [|c s _] using rev_ind; [done|].
  rewrite last_snoc. intros H. apply negb_true_iff in H.
  by apply trimEnd_no_ws_last.
Qed.

Lemma trim_head_ok (s : jsstring) : head_ok (trim s) = true.
Proof. apply trimEnd_head_ok, trimStart_head_ok. Qed.

Lemma trim_last_ok (s : jsstring) : last_ok (trim s) = true.
Proof. apply trimEnd_last_ok. Qed.

Lemma trim_id (s : jsstring) :
  head_ok s = true -> last_ok s = true -> trim s = s.
Proof. intros Hh Hl. unfold trim. rewrite trimStart_id by done. by apply trimEnd_id. Qed.

Lemma trim_idempotent (s : jsstring) : trim (trim s) = trim s.
Proof. apply trim_id; [apply trim_head_ok | apply trim_last_ok]. Qed.

Lemma trimStart_forallb (P : N -> bool) (s : jsstring) :
  forallb P s = true -> forallb P (trimStart s) = true.
Proof.
  induction s as [|c s IH]; simpl; [done|].
  intros [Hc Hs]%andb_prop. destruct (is_ws c); [by apply IH|].
  simpl. by rewrite Hc, Hs.
Qed.

Lemma trimEnd_forallb (P : N -> bool) (s : jsstring) :
  forallb P s = true -> forallb P (trimEnd s) = true.
Proof.
  induction s as [|c s IH]; simpl; [done|].
  intros [Hc Hs]%andb_prop. apply IH in Hs.
  destruct (trimEnd s) as [|d r].
  - destruct (is_ws c); simpl; [done|]. by rewrite Hc.
  - change (forallb P (c :: d :: r)) with (P c && forallb P (d :: r)).
    by rewrite Hc, Hs.
Qed.

Lemma trim_forallb (P : N -> bool) (s : jsstring) :
  forallb P s = true -> forallb P (trim s) = true.
Proof. intros H. by apply trimEnd_forallb, trimStart_forallb. Qed.

Lemma replace_ws_only_spaces (b : bool) (s : jsstring) :
  only_spaces (replace_ws_from b (lit " ") s) = true.
Proof.
  revert b. induction s as [|c s IH]; intros b; simpl; [done|].
  destruct (is_ws c) eqn:E.
  - destruct b; simpl; [apply IH|]. apply (IH true).
  - simpl. rewrite E. simpl. apply IH.
Qed.

Lemma replace_ws_length (b : bool) (s : jsstring) :
  (length (replace_ws_from b (lit " ") s) <= length s)%nat.
Proof.
  revert b. induction s as [|c s IH]; intros b; simpl; [lia|].
  destruct (is_ws c).
  - destruct b; simpl; [pose proof (IH true) | pose proof (IH true)]; lia.
  - simpl. pose proof (IH false). lia.
Qed.

Lemma replace_ws_normal (b : bool) (s : jsstring) :
  spaced b s = true -> only_spaces s = true ->
  replace_ws_from b (lit " ") s = s.
Proof.
  revert b. induction s as [|c s IH]; intros b; simpl; [done|].
  intros [Hb Hs]%andb_prop [Hc Ho]%andb_prop.
  destruct (is_ws c) eqn:E.
  - simpl in Hc. apply N.eqb_eq in Hc. subst c.
    rewrite andb_true_r in Hb. apply negb_true_iff in Hb. subst b.
    simpl. f_equal. by apply IH.
  - f_equal. by apply IH.
Qed.

(** X1. A sanitized string is in normal form: no white space at either
    end, never two white-space units in a row, and no white space other
    than the space U+0020. *)
Theorem sanitizeString_normal_form (s : jsstring) :
  head_ok (sanitizeString s) = true
  /\ last_ok (sanitizeString s) = true
  /\ spaced true (sanitizeString s) = true
  /\ only_spaces (sanitizeString s) = true.
Proof.
  split; [apply trim_head_ok|]. split; [apply trim_last_ok|].
  split; [apply sanitizeString_spaced|].
  apply trim_forallb, replace_ws_only_spaces.
Qed.

(** X2. Sanitizing is idempotent: a sanitized string is left as it is, so
    the fields the extraction sanitized are not changed when step 2
    sanitizes them again. *)
Theorem sanitizeString_idempotent (s : jsstring) :
  sanitizeString (sanitizeString s) = sanitizeString s.
Proof.
  destruct (sanitizeString_normal_form s) as (Hh & Hl & Hs & Ho).
  unfold sanitizeString at 1. unfold replace_ws.
  rewrite replace_ws_normal; [by apply trim_id| |done].
  by apply spaced_weaken.
Qed.

(** X3. Sanitizing never lengthens a string. *)
Theorem sanitizeString_length (s : jsstring) :
  (length (sanitizeString s) <= length s)%nat.
Proof.
  unfold sanitizeString, replace_ws.
  pose proof (trim_length (replace_ws_from false (lit " ") s)).
  pose proof (replace_ws_length false s). lia.
Qed.

Lemma replace_crlf_unfold (c : N) (s : jsstring) :
  replace_crlf (c :: s) =
    match s with
    | d :: s' =>
        if ((c =? 13) && (d =? 10))%N then 10%N :: replace_crlf s'
        else c :: replace_crlf s
    | [] => [c]
    end.
Proof.
  destruct s as [|d s'].
  - destruct c as [|p]; [done|]. do 4 (try destruct p as [p|p|]); reflexivity.
  - destruct c as [|p]; [done|].
    do 4 (try destruct p as [p|p|]); try reflexivity.
    destruct d as [|q]; [done|].
    do 4 (try destruct q as [q|q|]); reflexivity.
Qed.

Lemma replace_crlf_length (s : jsstring) :
  (length (replace_crlf s) <= length s)%nat.
Proof.
  assert (forall n s, (length s <= n)%nat ->
            (length (replace_crlf s) <= length s)%nat) as H.
  { clear s. induction n as [|n IH]; intros s Hn.
    - destruct s; simpl in *; lia.
    - destruct s as [|c s]; [simpl; lia|]. rewrite replace_crlf_unfold.
      destruct s as [|d s']; [simpl; lia|].
      destruct ((c =? 13) && (d =? 10))%N.
      + pose proof (IH s'). simpl in *. lia.
      + pose proof (IH (d :: s')). simpl in *. lia. }
  by apply (H (length s)).
Qed.

Section Utilities.
Context {R : Runtime}.

(** X4. [toPlainMultiline] on a falsy value ([undefined], [null], the empty
    string, ...) is the empty string, not the spelling of the value; on a
    string it never throws, and its result carries no white space at either
    end, is no longer than the string, and is not changed by another
    trim. *)
Theorem toPlainMultiline_edges :
  (forall v, truthy v = false -> toPlainMultiline v = Normal [])
  /\ (forall s, exists t,
        toPlainMultiline (VString s) = Normal t
        /\ head_ok t = true /\ last_ok t = true
        /\ trim t = t
        /\ (length t <= length s)%nat).
Proof.
  split.
  - intros v Hv. unfold toPlainMultiline, or_else. rewrite Hv.
    by rewrite ToString_string.
  - intros s. eexists. split; [apply toPlainMultiline_string|].
    split; [apply trim_head_ok|]. split; [apply trim_last_ok|].
    split; [apply trim_idempotent|].
    pose proof (trim_length (replace_crlf s)).
    pose proof (replace_crlf_length s). lia.
Qed.

(** X5. Whatever the company is, and whatever the engine's lowercasing
    does, the derived HR address has the shape "hr@<domain>.com" with a
    domain free of white space; the address itself holds no white space. *)
Theorem deriveHrEmail_shape (company : value) :
  exists domain,
    deriveHrEmail company = lit "hr@" ++ domain ++ lit ".com"
    /\ no_ws domain = true
    /\ no_ws (deriveHrEmail company) = true.
Proof.
  assert (forall d, no_ws d = true -> no_ws (lit "hr@" ++ d ++ lit ".com") = true) as Hno.
  { intros d Hd. by rewrite !no_ws_app, Hd. }
  assert (exists d, deriveHrEmail company = lit "hr@" ++ d ++ lit ".com"
                    /\ no_ws d = true) as (d & Hd & Hn).
  { destruct company as [| | | |[|x c]| |];
      try (exists (lit "company"); by split).
    eexists. split; [reflexivity|].
    unfold replace_ws. rewrite replace_ws_empty. apply no_ws_filter. }
  exists d. rewrite Hd. auto.
Qed.

End Utilities.

(** ** The composer: what throws, what the extraction changes *)

Section ComposerMore.
Context {R : Runtime}.

Lemma get_prop_truthy (v : value) (k : jsstring) :
  truthy v = true -> get_prop v k = Normal (prop v k).
Proof. unfold prop. by destruct v. Qed.

Lemma resolveContext_rawObject (genAI : GenAI) (m : gmap (list N) value) :
  truthy (own m "rawText") = true ->
  resolveContext genAI (VObject m) =
    (text <- ToString (own m "rawText");;
     match tryExtract genAI text (objectVars m) with
     | (v', Normal _) => Normal (prepareSafe v')
     | (v', Throw _) => Normal (prepareSafe (extractionDefaults v'))
     end).
Proof.
  intros H. unfold own in H.
  unfold resolveContext, destructuringSource, extractionPhase, rawTextOf.
  simpl. rewrite H. simpl. unfold own.
  destruct (ToString _) as [text|]; simpl; [|done].
  by destruct (tryExtract genAI text _) as [v' [[]|]].
Qed.


(** The fields the extraction never assigns. *)
Lemma tryExtract_others (genAI : GenAI) (text : jsstring) (v : Vars) :
  let v' := fst (tryExtract genAI text v) in
  userEmail v' = userEmail v /\ userPhone v' = userPhone v
  /\ hrName v' = hrName v /\ hrEmail v' = hrEmail v
  /\ companyPhone v' = companyPhone v
  /\ education v' = education v /\ skills v' = skills v.
Proof.
  unfold tryExtract. destruct (genAI _ _) as [|text' parsed]; [done|].
  destruct (if truthy parsed then _ else _) as [pe|]; [|done].
  by destruct pe.
Qed.

(** X7. On an object carrying raw text, the extraction, succeeding or
    failing, leaves [userEmail], [userPhone], [hrName], [companyPhone],
    [education] and [skills] as the object gives them: the constants
    resolved for them are those of the same object read as a structured
    context. *)
Theorem extraction_keeps_other_fields (genAI : GenAI)
    (m : gmap (list N) value) (c : SafeVars) :
  truthy (own m "rawText") = true ->
  resolveContext genAI (VObject m) = Normal c ->
  let c0 := prepareSafe (objectVars m) in
  safeUserEmail c = safeUserEmail c0
  /\ safeUserPhone c = safeUserPhone c0
  /\ safeHrName c = safeHrName c0
  /\ safeCompanyPhone c = safeCompanyPhone c0
  /\ safeEducation c = safeEducation c0
  /\ safeSkills c = safeSkills c0.
Proof.
  intros Hr. rewrite (resolveContext_rawObject _ _ Hr).
  destruct (ToString _) as [text|]; simpl; [|done].
  pose proof (tryExtract_others genAI text (objectVars m)) as Ho.
  destruct (tryExtract genAI text (objectVars m)) as [v' r]. simpl in Ho.
  destruct Ho as (H1 & H2 & H3 & H4 & H5 & H6 & H7).
  destruct r as [[]|]; intros [= <-]; simpl;
    rewrite ?H1, ?H2, ?H3, ?H5, ?H6, ?H7; done.
Qed.

Lemma sanitizeText_twice (x : value) (d d' : jsstring) :
  sanitizeString d = d ->
  sanitizeText (VString (sanitizeText x d)) d' = sanitizeText x d.
Proof.
  intros Hd. destruct x; simpl; try done. apply sanitizeString_idempotent.
Qed.

(** X8. On a string input, when the extraction call answers with a truthy
    structured result, the four constants of the prompt are the result's
    fields sanitized once (the second sanitizing of step 2 changes nothing),
    each replaced by "Candidate", "Software Engineer", "the company" or
    "India" when the result does not hold a string for it; the text of the
    answer is not looked at. *)
Theorem extraction_structured_result (genAI : GenAI) (s text : jsstring)
    (parsed : value) :
  genAI extractorParams (extractorPrompt s) = CallReturns text parsed ->
  truthy parsed = true ->
  exists c, resolveContext genAI (VString s) = Normal c
    /\ safeName c = sanitizeText (prop parsed (lit "name")) (lit "Candidate")
    /\ safeJobRole c
       = sanitizeText (prop parsed (lit "jobRole")) (lit "Software Engineer")
    /\ safeCompany c
       = sanitizeText (prop parsed (lit "company")) (lit "the company")
    /\ safeLocation c = sanitizeText (prop parsed (lit "location")) (lit "India").
Proof.
  intros Hg Hp. rewrite resolveContext_string. unfold tryExtract.
  rewrite Hg, Hp. rewrite !(get_prop_truthy _ _ Hp).
  eexists. split; [reflexivity|].
  cbn [prepareSafe safeName safeJobRole safeCompany safeLocation
       set_name set_jobRole set_company set_location
       name jobRole company location].
  by rewrite !sanitizeText_twice.
Qed.

Lemma derive_the_company :
  deriveHrEmail (VString (lit "the company")) = lit "hr@thecompany.com".
Proof.
  unfold deriveHrEmail, replace_ws. simpl negb. rewrite replace_ws_empty.
  rewrite toLowerCase_ascii; [reflexivity|]. repeat constructor.
Qed.

(** X9. On a string input, when the extraction call answers with no
    structured result and a text without an opening or without a closing
    brace, nothing is parsed and nothing is thrown: the four fields take
    "Candidate", "Software Engineer", "the company" and "India", and the
    HR address derived from them is "hr@thecompany.com". *)
Theorem extraction_without_braces (genAI : GenAI) (s text : jsstring)
    (parsed : value) :
  genAI extractorParams (extractorPrompt s) = CallReturns text parsed ->
  truthy parsed = false ->
  indexOf 123 text = -1 \/ lastIndexOf 125 text = -1 ->
  resolveContext genAI (VString s) = Normal extractedDefaultContext.
Proof.
  intros Hg Hp Hb. rewrite resolveContext_string. unfold tryExtract.
  rewrite Hg, Hp.
  assert (negb (indexOf 123 text =? -1) && negb (lastIndexOf 125 text =? -1)
          = false) as ->.
  { destruct Hb as [-> | ->]; [done|]. by rewrite andb_false_r. }
  cbn [get_prop]. rewrite !lookup_empty.
  cbn [default sanitizeText]. f_equal.
  unfold prepareSafe, extractedDefaultContext.
  cbn [set_name set_jobRole set_company set_location
       name jobRole company location hrEmail userEmail userPhone hrName
       education skills companyPhone stringVars objectVars].
  unfold own. rewrite !lookup_empty. cbn [default with_default or_else truthy].
  rewrite derive_the_company. reflexivity.
Qed.

(** X10. A truthy structured result of the generation call decides alone:
    when its [subject] and [body] are both strings the email is made from
    them, and when one of them is not a string the fallback is returned; in
    neither case is the text of the answer parsed. *)
Theorem structured_answer_decides (genAI : GenAI) (c : SafeVars)
    (text : jsstring) (parsed : value) :
  genAI generatorParams (prompt c) = CallReturns text parsed ->
  truthy parsed = true ->
  compose genAI c =
    match prop parsed (lit "subject"), prop parsed (lit "body") with
    | VString subj, VString bdy =>
        {| subject := finalSubject (sanitizeString subj);
           body := trim (replace_crlf bdy) |}
    | _, _ => fallback c
    end.
Proof.
  intros Hg Hp.
  assert (generatedFields genAI c =
            match prop parsed (lit "subject"), prop parsed (lit "body") with
            | VString subj, VString bdy => Normal (subj, bdy)
            | _, _ => Throw OtherError
            end) as Hf.
  { unfold generatedFields. rewrite Hg, Hp. cbn [bind negb].
    rewrite Hp. cbn [negb]. rewrite !(get_prop_truthy _ _ Hp). cbn [bind].
    destruct (prop parsed (lit "subject")); try done.
    all: by destruct (prop parsed (lit "body")). }
  destruct (prop parsed (lit "subject")) as [| | | |subj| |];
    try (by apply (compose_fallback _ _ _ Hf)).
  destruct (prop parsed (lit "body")) as [| | | |bdy| |];
    try (by apply (compose_fallback _ _ _ Hf)).
  unfold compose. by rewrite (tryGenerate_fields _ _ _ _ Hf).
Qed.

(** X11. A generated subject made of white space only is returned as the
    empty subject: the template subject is not put in its place. *)
Theorem blank_generated_subject (genAI : GenAI) (input : value) (c : SafeVars)
    (raw bdy : jsstring) :
  resolveContext genAI input = Normal c ->
  generatedFields genAI c = Normal (raw, bdy) ->
  all_ws raw = true ->
  generateEmail genAI input
  = Normal {| subject := []; body := trim (replace_crlf bdy) |}.
Proof.
  intros Hc Hg Hw. rewrite (generateEmail_resolved _ _ _ Hc). unfold compose.
  rewrite (tryGenerate_fields _ _ _ _ Hg).
  apply sanitizeString_nil in Hw. by rewrite Hw.
Qed.

End ComposerMore.

(** ** The text handed to [JSON.parse] *)

Lemma indexOf_range (c : N) (s : jsstring) :
  indexOf c s = -1
  \/ (0 <= indexOf c s < Z.of_nat (length s)
      /\ s !! Z.to_nat (indexOf c s) = Some c).
Proof.
  induction s as [|x s IH]; simpl; [by left|].
  destruct (N.eqb_spec x c) as [->|Hne].
  - right. split; [lia|done].
  - destruct IH as [-> | [Hr Hl]]; [by left|].
    replace (indexOf c s <? 0) with false by (symmetry; apply Z.ltb_ge; lia).
    right. split; [lia|].
    replace (Z.to_nat (indexOf c s + 1)) with (S (Z.to_nat (indexOf c s))) by lia.
    done.
Qed.

Lemma lastIndexOf_range (c : N) (s : jsstring) :
  lastIndexOf c s = -1
  \/ (0 <= lastIndexOf c s < Z.of_nat (length s)
      /\ s !! Z.to_nat (lastIndexOf c s) = Some c).
Proof.
  induction s as [|x s IH]; simpl; [by left|].
  destruct IH as [-> | [Hr Hl]].
  - simpl. destruct (N.eqb_spec x c) as [->|Hne]; [|by left].
    right. split; [lia|done].
  - replace (0 <=? lastIndexOf c s) with true by (symmetry; apply Z.leb_le; lia).
    right. split; [lia|].
    replace (Z.to_nat (lastIndexOf c s + 1))
      with (S (Z.to_nat (lastIndexOf c s))) by lia.
    done.
Qed.

Lemma ends_decompose (t : jsstring) (k : nat) (x y : N) :
  length t = S (S k) -> t !! 0%nat = Some x -> t !! S k = Some y ->
  exists mid, t = x :: mid ++ [y].
Proof.
  intros Hlen H0 Hk. destruct t as [|x' t]; [done|].
  simpl in H0. injection H0 as ->. simpl in Hk, Hlen.
  destruct t as [|z t _] using rev_ind; [done|].
  rewrite length_app in Hlen. simpl in Hlen.
  rewrite lookup_app_r in Hk by lia.
  replace (k - length t)%nat with 0%nat in Hk by lia.
  simpl in Hk. injection Hk as ->. by exists t.
Qed.

(** X12. When a text holds both braces, the slice from the first opening
    brace to the last closing brace that the extraction hands to
    [JSON.parse] starts with the one and ends with the other; when the
    last closing brace comes before the first opening brace the slice is
    the empty string. *)
Theorem brace_slice (text : jsstring) :
  let start := indexOf 123 text in
  let end_ := lastIndexOf 125 text in
  start <> -1 -> end_ <> -1 ->
  (start < end_ ->
     exists mid, slice text start (end_ + 1) = 123%N :: mid ++ [125%N])
  /\ (end_ < start -> slice text start (end_ + 1) = [])
  /\ start <> end_.
Proof.
  intros start end_ Hs He.
  destruct (indexOf_range 123 text) as [? | [Hsr Hsl]]; [done|].
  destruct (lastIndexOf_range 125 text) as [? | [Her Hel]]; [done|].
  fold start in Hsr, Hsl. fold end_ in Her, Hel.
  assert (slice text start (end_ + 1)
          = take (Z.to_nat (end_ + 1 - start)) (drop (Z.to_nat start) text)) as Hsl'.
  { unfold slice. cbv zeta.
    replace (start <? 0) with false by (symmetry; apply Z.ltb_ge; lia).
    replace (end_ + 1 <? 0) with false by (symmetry; apply Z.ltb_ge; lia).
    by rewrite !Z.min_l by lia. }
  rewrite Hsl'. split; [|split].
  - intros Hlt.
    apply (ends_decompose _ (Z.to_nat (end_ - start) - 1)).
    + rewrite length_take, length_drop. lia.
    + rewrite lookup_take_lt by lia. rewrite lookup_drop.
      by rewrite Nat.add_0_r.
    + rewrite lookup_take_lt by lia. rewrite lookup_drop.
      replace (Z.to_nat start + S (Z.to_nat (end_ - start) - 1))%nat
        with (Z.to_nat end_) by lia.
      done.
  - intros Hlt. replace (Z.to_nat (end_ + 1 - start)) with 0%nat by lia.
    apply take_0.
  - intros Heq. rewrite Heq in Hsl. rewrite Hsl in Hel. done.
Qed.

(** ** The two matches of the free-text branch *)

Lemma includes_unfold (needle hay : jsstring) :
  includes needle hay =
    is_prefix needle hay
    || match hay with
       | [] => false
       | _ :: hay' => includes needle hay'
       end.
Proof. by destruct hay. Qed.

Lemma includes_prefix (needle hay : jsstring) :
  is_prefix needle hay = true -> includes needle hay = true.
Proof. intros H. by rewrite includes_unfold, H. Qed.

Lemma includes_cons (needle hay : jsstring) (x : N) :
  includes needle hay = true -> includes needle (x :: hay) = true.
Proof. intros H. rewrite includes_unfold, H. apply orb_true_r. Qed.

Lemma is_prefix_take (n : nat) (s : jsstring) : is_prefix (take n s) s = true.
Proof.
  revert n. induction s as [|c s IH]; intros [|n]; simpl; try done.
  by rewrite N.eqb_refl, IH.
Qed.

Lemma ci_eq_lower (p c : N) :
  ((97 <=? p) && (p <=? 122))%N = true -> ci_eq p c = true -> ascii_lower c = p.
Proof.
  intros [H1 H2]%andb_prop. apply N.leb_le in H1, H2.
  unfold ci_eq, ascii_lower. intros [H|H]%orb_prop.
  - apply N.eqb_eq in H. subst c.
    destruct ((65 <=? p) && (p <=? 90))%N eqn:E; [|done].
    apply andb_prop in E as [_ E]. apply N.leb_le in E. lia.
  - apply andb_prop in H as [_ H]. apply N.eqb_eq in H. subst c.
    destruct ((65 <=? p - 32) && (p - 32 <=? 90))%N eqn:E; [lia|].
    apply andb_false_iff in E as [E|E]; apply N.leb_gt in E; lia.
Qed.

Lemma ci_prefix_lower (kw s : jsstring) :
  forallb (fun p => (97 <=? p) && (p <=? 122))%N kw = true ->
  ci_prefix kw s = true ->
  ascii_lower <$> take (length kw) s = kw.
Proof.
  revert s. induction kw as [|p kw IH]; intros s; simpl; [done|].
  intros [Hp Hkw]%andb_prop. destruct s as [|c s]; simpl; [done|].
  intros [Hc Hs]%andb_prop.
  f_equal; [by apply ci_eq_lower | by apply IH].
Qed.

Lemma firstAlternative_sound (alts : list jsstring) (s m : jsstring) :
  firstAlternative alts s = Some m ->
  exists kw, kw ∈ alts /\ ci_prefix kw s = true /\ m = take (length kw) s.
Proof.
  induction alts as [|kw alts IH]; simpl; [done|].
  destruct (ci_prefix kw s) eqn:E.
  - intros [= <-]. exists kw. split; [left|done].
  - intros (kw' & Hin & H)%IH. exists kw'. split; [by right|done].
Qed.

Lemma jobRoleMatch_unfold (s : jsstring) :
  jobRoleMatch s =
    match firstAlternative roleKeywords s with
    | Some m => Some m
    | None => match s with
              | [] => None
              | _ :: s' => jobRoleMatch s'
              end
    end.
Proof. by destruct s. Qed.

Lemma roleKeywords_lower (kw : jsstring) :
  kw ∈ roleKeywords ->
  forallb (fun p => (97 <=? p) && (p <=? 122))%N kw = true /\ kw <> [].
Proof.
  unfold roleKeywords. rewrite !elem_of_cons, elem_of_nil.
  intros [->|[->|[->|[->|[->|[->|[]]]]]]]; by vm_compute.
Qed.

(** X13. Whatever the text, a job role found by the first pattern of the
    free-text branch is, up to the case of its letters, one of the six
    keywords, and it occurs in the text as it is returned. *)
Theorem jobRoleMatch_sound (u m : jsstring) :
  jobRoleMatch u = Some m ->
  (ascii_lower <$> m) ∈ roleKeywords /\ includes m u = true.
Proof.
  induction u as [|x u IH]; rewrite jobRoleMatch_unfold.
  - by vm_compute.
  - destruct (firstAlternative roleKeywords (x :: u)) as [m'|] eqn:E.
    + intros [= ->]. apply firstAlternative_sound in E as (kw & Hin & Hp & ->).
      destruct (roleKeywords_lower _ Hin) as [Hl _].
      rewrite (ci_prefix_lower _ _ Hl Hp).
      split; [done|]. apply includes_prefix, is_prefix_take.
    + intros H. destruct (IH H) as (H1 & H2).
      split; [done|]. by apply includes_cons.
Qed.

Lemma class_run_facts (s : jsstring) :
  forallb in_company_class (class_run s) = true
  /\ is_prefix (class_run s) s = true.
Proof.
  induction s as [|c s [IH1 IH2]]; simpl; [done|].
  destruct (in_company_class c) eqn:E; simpl; [|done].
  by rewrite E, IH1, N.eqb_refl, IH2.
Qed.

Lemma class_plus_sound (s g : jsstring) :
  class_plus s = Some g ->
  g <> [] /\ forallb in_company_class g = true /\ is_prefix g s = true.
Proof.
  unfold class_plus. destruct (class_run_facts s) as [H1 H2].
  destruct (class_run s) as [|c r]; [done|]. by intros [= <-].
Qed.

Lemma ws_more_then_class_sound (s g : jsstring) :
  ws_more_then_class s = Some g ->
  g <> [] /\ forallb in_company_class g = true /\ includes g s = true.
Proof.
  assert (forall t, class_plus t = Some g ->
            g <> [] /\ forallb in_company_class g = true /\ includes g t = true)
    as Hcp.
  { intros t (H1 & H2 & H3)%class_plus_sound. auto using includes_prefix. }
  induction s as [|c s IH]; [apply Hcp|].
  cbn [ws_more_then_class]. destruct (is_ws c); [|apply Hcp].
  destruct (ws_more_then_class s) as [r|]; [|apply Hcp].
  intros [= ->]. destruct (IH eq_refl) as (H1 & H2 & H3).
  split; [done|]. split; [done|]. by apply includes_cons.
Qed.

Lemma companyMatch_unfold (s : jsstring) :
  companyMatch s =
    match companyMatchAt s with
    | Some g => Some g
    | None => match s with
              | [] => None
              | _ :: s' => companyMatch s'
              end
    end.
Proof. by destruct s. Qed.

(** X14. Whatever the text, a company captured by the second pattern of
    the free-text branch is not empty, is made of ASCII letters, digits,
    white space and ampersands only, and occurs in the text. *)
Theorem companyMatch_sound (u g : jsstring) :
  companyMatch u = Some g ->
  g <> [] /\ forallb in_company_class g = true /\ includes g u = true.
Proof.
  induction u as [|x u IH]; rewrite companyMatch_unfold; [done|].
  destruct (companyMatchAt (x :: u)) as [g'|] eqn:E.
  - intros [= ->]. unfold companyMatchAt in E.
    destruct u as [|t [|w s]]; try done.
    destruct (ci_eq 97 x && ci_eq 116 t && is_ws w); [|done].
    apply ws_more_then_class_sound in E as (H1 & H2 & H3).
    split; [done|]. split; [done|]. by do 3 apply includes_cons.
  - intros H. destruct (IH H) as (H1 & H2 & H3).
    split; [done|]. split; [done|]. by apply includes_cons.
Qed.

(** X15. In the free-text branch, [parsedInput.company] is always a string
    of ASCII letters, digits, white space and ampersands without white
    space at either end: the default "the company", or the trimmed capture,
    which is empty when the capture is white space only. *)
Theorem freeText_company (u : jsstring) :
  exists c,
    prop (freeTextData u) (lit "company") = VString c
    /\ forallb in_company_class c = true
    /\ head_ok c = true /\ last_ok c = true
    /\ (c = [] <-> exists g, companyMatch u = Some g /\ all_ws g = true).
Proof.
  destruct (companyMatch u) as [g|] eqn:E.
  - exists (trim g). split.
    { unfold freeTextData. rewrite E. reflexivity. }
    destruct (companyMatch_sound _ _ E) as (_ & Hc & _).
    split; [by apply trim_forallb|].
    split; [apply trim_head_ok|]. split; [apply trim_last_ok|].
    rewrite trim_nil. split; [by eauto|]. by intros (? & [= <-] & ?).
  - exists (lit "the company"). split.
    { unfold freeTextData. rewrite E. reflexivity. }
    repeat split; try done. by intros (? & ? & ?).
Qed.

(** ** The handler: when it answers 500, what it asks of the model *)

Section RouteMore.
Context {R : Runtime}.

Lemma normalize_object (body p : value) :
  normalize body = Normal p ->
  exists m, p = VObject m
    /\ truthy (own m "rawText") = false
    /\ truthy (own m "hrEmail") = true.
Proof.
  intros [[u ->] | ->]%normalize_inv.
  - destruct (freeTextData_map u) as (j & c & ->).
    eexists. split; [reflexivity|].
    by destruct (freeTextMap_facts j c) as (-> & -> & _).
  - eexists. split; [reflexivity|]. unfold own.
    rewrite fieldsMap_rawText. split; [done|].
    rewrite (fieldsMap_lookup _ FHrEmail). simpl. by apply truthy_or_else.
Qed.

Lemma postGenerate_normal (genAI : GenAI) (body : value)
    (m : gmap (list N) value) :
  normalize body = Normal (VObject m) ->
  truthy (own m "rawText") = false ->
  postGenerate genAI body
  = Status200 (VObject m) (compose genAI (prepareSafe (objectVars m))).
Proof.
  intros Hn Hr. unfold postGenerate. rewrite Hn. cbn [bind].
  by rewrite (generateEmail_resolved _ _ _ (resolveContext_object genAI m Hr)).
Qed.

Lemma normalize_throws (body : value) (e : error) :
  normalize body = Throw e ->
  e = TypeError
  /\ (body = VUndefined \/ body = VNull
      \/ exists i, get_prop body (lit "input") = Normal i
           /\ truthy i = true /\ is_string i = false).
Proof.
  unfold normalize. destruct (is_string body) eqn:Hs.
  - by destruct body.
  - destruct (get_prop body (lit "input")) as [i|e'] eqn:Hi.
    + cbn [bind]. destruct (truthy i) eqn:Ht.
      * unfold or_else. rewrite Ht.
        destruct i; try done; intros [= <-]; (split; [done|]);
          right; right; eexists; done.
      * rewrite routeDefaults_fields, (structuredEntries_normal _ _ _ _ Hi). done.
    + cbn [bind]. intros [= ->].
      destruct body; try done; injection Hi as <-; auto.
Qed.

(** X16. The handler answers 500 in exactly two situations, both with a
    TypeError: the parsed body is [undefined] or [null], or its [input] is
    truthy without being a string (so that [match] is not a function).
    Every other body gets a 200, whatever the model does. *)
Theorem postGenerate_500_iff (genAI : GenAI) (body : value) (e : error) :
  postGenerate genAI body = Status500 e
  <-> e = TypeError
      /\ (body = VUndefined \/ body = VNull
          \/ exists i, get_prop body (lit "input") = Normal i
               /\ truthy i = true /\ is_string i = false).
Proof.
  split.
  - destruct (normalize body) as [p|e'] eqn:Hn.
    + destruct (normalize_object _ _ Hn) as (m & -> & Hr & _).
      by rewrite (postGenerate_normal _ _ _ Hn Hr).
    + unfold postGenerate. rewrite Hn. simpl. intros [= <-].
      by apply normalize_throws.
  - intros [-> [-> | [-> | (i & Hi & Ht & Hs)]]]; try done.
    unfold postGenerate, normalize.
    assert (is_string body = false) as ->.
    { destruct body; try done. injection Hi as <-. done. }
    rewrite Hi. cbn [bind]. rewrite Ht. cbn [bind].
    unfold or_else. rewrite Ht. by destruct i.
Qed.

Lemma compose_ext (g1 g2 : GenAI) (c : SafeVars) :
  g1 generatorParams (prompt c) = g2 generatorParams (prompt c) ->
  compose g1 c = compose g2 c.
Proof.
  intros H. unfold compose, tryGenerate, generatedFields. by rewrite H.
Qed.

(** X17. The handler never reaches the extraction: its answer depends on
    the model only through the generation call, so two model clients that
    answer the generation call alike give the same response, however they
    differ on the extraction call. *)
Theorem postGenerate_generation_only (g1 g2 : GenAI) (body : value) :
  (forall pr, g1 generatorParams pr = g2 generatorParams pr) ->
  postGenerate g1 body = postGenerate g2 body.
Proof.
  intros H. destruct (normalize body) as [p|e] eqn:Hn.
  - destruct (normalize_object _ _ Hn) as (m & -> & Hr & _).
    rewrite !(postGenerate_normal _ _ _ Hn Hr).
    by rewrite (compose_ext g1 g2).
  - unfold postGenerate. by rewrite Hn.
Qed.

(** X18. For every accepted request, [parsedInput.hrEmail] is truthy, so
    the HR address of the prompt is that value sanitized, or
    "hr@company.com" when it is not a string: the handler never lets the
    composer derive the address from the company name. *)
Theorem route_hr_email (genAI : GenAI) (body p : value) (e : Email) :
  postGenerate genAI body = Status200 p e ->
  exists c, resolveContext genAI p = Normal c
    /\ truthy (prop p (lit "hrEmail")) = true
    /\ safeHrEmail c = sanitizeText (prop p (lit "hrEmail")) (lit "hr@company.com").
Proof.
  intros [Hn He]%postGenerate_inv.
  destruct (normalize_object _ _ Hn) as (m & -> & Hr & Hh).
  eexists. split; [by apply resolveContext_object|].
  rewrite prop_object. split; [exact Hh|].
  unfold prepareSafe, objectVars, or_else.
  cbn [safeHrEmail hrEmail]. by rewrite Hh.
Qed.

Lemma routeDefault_truthy (f : Field) :
  f <> FUserPhone -> f <> FCompanyPhone -> truthy (routeDefault f) = true.
Proof. by destruct f. Qed.

(** X19. In the structured branch every field of [parsedInput] other than
    the two phones is truthy, whatever the payload holds; a phone is
    truthy or the empty string. *)
Theorem structured_fields_truthy (genAI : GenAI) (body i : value) :
  is_string body = false ->
  get_prop body (lit "input") = Normal i ->
  truthy i = false ->
  exists p e, postGenerate genAI body = Status200 p e
    /\ forall f : Field,
         truthy (prop p (fieldKey f)) = true
         \/ ((f = FUserPhone \/ f = FCompanyPhone)
             /\ prop p (fieldKey f) = VString []).
Proof.
  intros Hs Hi Ht. eexists _, _.
  split; [by apply (postGenerate_structured _ _ _ Hs Hi Ht)|].
  intros f. unfold structuredData. rewrite prop_object, fieldsMap_lookup.
  cbn [default]. unfold structuredValue, or_else.
  destruct (truthy (prop body (fieldKey f))) eqn:E; [by left|].
  destruct f; try (by left); right; by auto.
Qed.

End RouteMore.

(** * The statements at concrete inputs *)

#[local] Existing Instance asciiRuntime.

(** ** Instances *)

Lemma C1_subject_cap_witness :
  resolveContext (R := asciiRuntime) (answering plainSubject95 (lit "Dear HR Manager,"))
    (VObject ∅) = Normal defaultContext
  /\ exists e,
       generateEmail (R := asciiRuntime)
         (answering plainSubject95 (lit "Dear HR Manager,")) (VObject ∅) = Normal e
       /\ (length (subject e) <= 90)%nat.
Proof.
  assert (resolveContext (R := asciiRuntime)
            (answering plainSubject95 (lit "Dear HR Manager,")) (VObject ∅)
          = Normal defaultContext) as Hc by reflexivity.
  split; [exact Hc|].
  destruct (C1_subject_cap (R := asciiRuntime) _ _ _ Hc) as [H _].
  assert (generatedFields (R := asciiRuntime)
            (answering plainSubject95 (lit "Dear HR Manager,")) defaultContext
          = Normal (plainSubject95, lit "Dear HR Manager,")) as Hg by reflexivity.
  destruct (H _ _ Hg) as (e & He & Hlen & _).
  exists e. split; assumption.
Defined.

Lemma C2_resolved_fields_witness :
  postGenerate (R := asciiRuntime) unreachable ashaBody
  = Status200 (structuredData ashaBody)
      (fallback (prepareSafe (objectVars (fieldsMap (structuredValue ashaBody)))))
  /\ exists c,
       resolveContext (R := asciiRuntime) unreachable (structuredData ashaBody) = Normal c
       /\ (safeOf FName c = []
           <-> exists s, prop (structuredData ashaBody) (fieldKey FName) = VString s
                         /\ all_ws s = true).
Proof.
  assert (postGenerate (R := asciiRuntime) unreachable ashaBody
          = Status200 (structuredData ashaBody)
              (fallback (prepareSafe (objectVars (fieldsMap (structuredValue ashaBody))))))
    as Hp by reflexivity.
  split; [exact Hp|].
  destruct (C2_resolved_fields (R := asciiRuntime) _ _ _ _ Hp) as (c & Hc & _ & Hf).
  exists c. split; [exact Hc | apply Hf].
Defined.

Lemma C3_asha_scenario_witness :
  (forall pr, unreachable generatorParams pr = CallThrows)
  /\ exists e,
       postGenerate (R := asciiRuntime) unreachable ashaBody
       = Status200 (structuredData ashaBody) e
       /\ subject e = lit "Application for Backend Developer " ++ en_dash ++ lit " Asha"
       /\ includes (lit "Dear HR,") (body e) = true
       /\ includes (lit "Acme") (body e) = true
       /\ includes (lit "asha@x.com") (body e) = true.
Proof.
  split; [reflexivity|].
  apply (C3_asha_scenario (R := asciiRuntime) unreachable). reflexivity.
Defined.

Lemma C4_extraction_failure_witness :
  snd (tryExtract (R := asciiRuntime) unreachable (lit "Apply for a job") stringVars)
  = Throw OtherError
  /\ exists c,
       resolveContext (R := asciiRuntime) unreachable (VString (lit "Apply for a job"))
       = Normal c
       /\ generateEmail (R := asciiRuntime) unreachable (VString (lit "Apply for a job"))
          = Normal (compose (R := asciiRuntime) unreachable c)
       /\ safeName c = lit "Candidate"
       /\ safeJobRole c = lit "Software Engineer"
       /\ safeCompany c = lit "the company"
       /\ safeLocation c = lit "Bangalore, India".
Proof.
  split; [reflexivity|].
  apply (C4_extraction_failure (R := asciiRuntime) unreachable
           (lit "Apply for a job") OtherError).
  reflexivity.
Defined.

Lemma C5_structured_fields_witness :
  is_string ashaBody = false
  /\ get_prop ashaBody (lit "input") = Normal VUndefined
  /\ truthy VUndefined = false
  /\ exists p e,
       postGenerate (R := asciiRuntime) unreachable ashaBody = Status200 p e
       /\ forall f : Field,
            prop p (fieldKey f) =
              if truthy (prop ashaBody (fieldKey f))
              then prop ashaBody (fieldKey f)
              else routeDefault f.
Proof.
  split; [reflexivity|]. split; [reflexivity|]. split; [reflexivity|].
  apply (C5_structured_fields (R := asciiRuntime) unreachable ashaBody VUndefined);
    reflexivity.
Defined.

Lemma C7_derived_hr_email_witness :
  truthy (hrEmail (objectVars {[ lit "company" := str "Example Corp" ]})) = false
  /\ safeHrEmail (prepareSafe (R := asciiRuntime)
                    (objectVars {[ lit "company" := str "Example Corp" ]}))
     = lit "hr@examplecorp.com".
Proof.
  assert (truthy (hrEmail (objectVars {[ lit "company" := str "Example Corp" ]}))
          = false) as Hhr by reflexivity.
  split; [exact Hhr|].
  apply (C7_derived_hr_email (R := asciiRuntime) _ Hhr).
  reflexivity.
Defined.

Lemma C8_fallback_deterministic_witness :
  rawTextOf ashaBody = Normal None
  /\ generateEmail (R := asciiRuntime) unreachable ashaBody
     = generateEmail (R := asciiRuntime) (fun _ _ => CallReturns (lit "no JSON") VNull) ashaBody
  /\ generateEmail (R := asciiRuntime) unreachable ashaBody
     = Normal (fallback (prepareSafe (R := asciiRuntime) (objectVars
         (list_to_map [(lit "name", str "Asha");
                       (lit "jobRole", str "Backend Developer");
                       (lit "company", str "Acme");
                       (lit "userEmail", str "asha@x.com")])))).
Proof.
  split; [reflexivity|].
  apply (C8_fallback_deterministic (R := asciiRuntime) unreachable
           (fun _ _ => CallReturns (lit "no JSON") VNull) ashaBody
           (prepareSafe (objectVars
              (list_to_map [(lit "name", str "Asha");
                            (lit "jobRole", str "Backend Developer");
                            (lit "company", str "Acme");
                            (lit "userEmail", str "asha@x.com")])))
           (prepareSafe (objectVars
              (list_to_map [(lit "name", str "Asha");
                            (lit "jobRole", str "Backend Developer");
                            (lit "company", str "Acme");
                            (lit "userEmail", str "asha@x.com")])))
           OtherError SyntaxError);
    reflexivity.
Defined.

Lemma C9_subject_95_witness :
  resolveContext (R := asciiRuntime) (answering plainSubject95 (lit "Dear HR Manager,"))
    (VObject ∅) = Normal defaultContext
  /\ generatedFields (R := asciiRuntime)
       (answering plainSubject95 (lit "Dear HR Manager,")) defaultContext
     = Normal (plainSubject95, lit "Dear HR Manager,")
  /\ length (sanitizeString plainSubject95) = 95%nat
  /\ sanitizeString plainSubject95 !! 86%nat = Some 97%N
  /\ exists e,
       generateEmail (R := asciiRuntime)
         (answering plainSubject95 (lit "Dear HR Manager,")) (VObject ∅) = Normal e
       /\ length (subject e) = 90%nat.
Proof.
  assert (resolveContext (R := asciiRuntime)
            (answering plainSubject95 (lit "Dear HR Manager,")) (VObject ∅)
          = Normal defaultContext) as Hc by reflexivity.
  assert (generatedFields (R := asciiRuntime)
            (answering plainSubject95 (lit "Dear HR Manager,")) defaultContext
          = Normal (plainSubject95, lit "Dear HR Manager,")) as Hg by reflexivity.
  assert (length (sanitizeString plainSubject95) = 95%nat) as Hlen by reflexivity.
  assert (sanitizeString plainSubject95 !! 86%nat = Some 97%N) as Hx by reflexivity.
  split; [exact Hc|]. split; [exact Hg|]. split; [exact Hlen|]. split; [exact Hx|].
  destruct (C9_subject_95 (R := asciiRuntime) _ _ _ _ _ _ Hc Hg Hlen Hx)
    as (e & He & Hplain & _).
  exists e. split; [exact He | apply Hplain; reflexivity].
Defined.

(** ** Inputs on which the specification's wording fails *)

(** C1, as worded, fails twice. With a job role of 100 units and a failing
    generation, the returned subject is the uncapped template, 128 units
    long. With a generated subject of 95 units whose 87th unit is a space,
    the returned subject is not the first 87 units followed by the dots. *)
Lemma C1_counterexample :
  (exists e,
     generateEmail unreachable longRoleInput = Normal e
     /\ ~ (length (subject e) <= 90)%nat)
  /\ (exists e,
        generateEmail (answering spacedSubject95 (lit "Dear HR Manager,")) (VObject ∅)
        = Normal e
        /\ (90 < length (sanitizeString spacedSubject95))%nat
        /\ subject e <> take 87 (sanitizeString spacedSubject95) ++ lit "...").
Proof.
  split.
  - exists (fallback (prepareSafe (objectVars
              (list_to_map [(lit "jobRole", VString (replicate 100 120%N))])))).
    split; [vm_compute; reflexivity|].
    intros H. vm_compute in H. lia.
  - exists {| subject := replicate 86 97%N ++ lit "...";
              body := lit "Dear HR Manager," |}.
    split; [vm_compute; reflexivity|].
    split; [vm_compute; lia|]. vm_compute. discriminate.
Qed.

(** C2, as worded, fails on the empty structured payload: the request is
    accepted and the phone constants of the prompt are empty. *)
Lemma C2_counterexample :
  postGenerate unreachable (VObject ∅)
  = Status200 (structuredData (VObject ∅)) (fallback emptyBodyContext)
  /\ resolveContext unreachable (structuredData (VObject ∅)) = Normal emptyBodyContext
  /\ safeOf FUserPhone emptyBodyContext = []
  /\ safeOf FCompanyPhone emptyBodyContext = [].
Proof. repeat split; vm_compute; reflexivity. Qed.

(** C3, as worded, fails: the body of the scenario does not contain
    "Dear HR Manager,". *)
Lemma C3_counterexample :
  exists e,
    postGenerate unreachable ashaBody = Status200 (structuredData ashaBody) e
    /\ includes (lit "Dear HR Manager,") (body e) = false.
Proof.
  exists (fallback (prepareSafe (objectVars (fieldsMap (structuredValue ashaBody))))).
  split; vm_compute; reflexivity.
Qed.

(** C5, as worded, fails on [{ name: true }]: the value is not a string and
    [parsedInput.name] is [true], not the default. *)
Lemma C5_counterexample :
  exists p e,
    postGenerate unreachable trueNameBody = Status200 p e
    /\ is_string (prop trueNameBody (fieldKey FName)) = false
    /\ prop p (fieldKey FName) = VBool true
    /\ prop p (fieldKey FName) <> routeDefault FName.
Proof.
  exists (structuredData trueNameBody),
         (fallback (prepareSafe (objectVars (fieldsMap (structuredValue trueNameBody))))).
  split; [vm_compute; reflexivity|].
  split; [reflexivity|]. split; [vm_compute; reflexivity|].
  vm_compute. discriminate.
Qed.

(** C6, as worded, fails: [parsedInput.jobRole] is "developer", which is not
    "backend developer" in any casing. *)
Lemma C6_counterexample :
  exists p e,
    postGenerate unreachable (VString initechText) = Status200 p e
    /\ prop p (lit "jobRole") = str "developer"
    /\ ascii_lower <$> lit "developer" <> ascii_lower <$> lit "backend developer".
Proof.
  exists (freeTextData initechText),
         (fallback (prepareSafe (objectVars
            (freeTextMap (str "developer") (str "Initech"))))).
  split; [vm_compute; reflexivity|].
  split; [vm_compute; reflexivity|]. vm_compute. discriminate.
Qed.

(** C7, as worded, fails on an empty company name: no [hrEmail] is given,
    the company is a string, and the HR email is "hr@company.com", not
    "hr@" followed by the (empty) lowercased name and ".com". *)
Lemma C7_counterexample :
  exists c,
    resolveContext unreachable emptyCompanyInput = Normal c
    /\ prop emptyCompanyInput (lit "hrEmail") = VUndefined
    /\ is_string (prop emptyCompanyInput (lit "company")) = true
    /\ safeHrEmail c = lit "hr@company.com"
    /\ safeHrEmail c <> lit "hr@" ++ replace_ws [] (toLowerCase []) ++ lit ".com".
Proof.
  exists (prepareSafe (objectVars (list_to_map [(lit "company", VString [])]))).
  split; [vm_compute; reflexivity|].
  split; [vm_compute; reflexivity|]. split; [vm_compute; reflexivity|].
  split; [vm_compute; reflexivity|]. vm_compute. discriminate.
Qed.

(** C9, as worded, fails on a sanitized subject of 95 units whose 87th unit
    is a space: the returned subject has 89 units. *)
Lemma C9_counterexample :
  exists e,
    generateEmail (answering spacedSubject95 (lit "Dear HR Manager,")) (VObject ∅)
    = Normal e
    /\ length (sanitizeString spacedSubject95) = 95%nat
    /\ length (subject e) = 89%nat
    /\ subject e <> take 87 (sanitizeString spacedSubject95) ++ lit "...".
Proof.
  exists {| subject := replicate 86 97%N ++ lit "...";
            body := lit "Dear HR Manager," |}.
  split; [vm_compute; reflexivity|].
  split; [vm_compute; reflexivity|]. split; [vm_compute; reflexivity|].
  vm_compute. discriminate.
Qed.

(** ** Instances of the further facts *)

Lemma toPlainMultiline_edges_witness :
  truthy VUndefined = false /\ toPlainMultiline VUndefined = Normal [].
Proof.
  split; [reflexivity|].
  apply (proj1 (toPlainMultiline_edges (R := asciiRuntime))). reflexivity.
Defined.


Lemma extraction_keeps_other_fields_witness :
  truthy (own rawTextMap "rawText") = true
  /\ resolveContext unreachable (VObject rawTextMap)
     = Normal (prepareSafe (extractionDefaults (objectVars rawTextMap)))
  /\ safeUserEmail (prepareSafe (extractionDefaults (objectVars rawTextMap)))
     = lit "asha@x.com".
Proof.
  assert (truthy (own rawTextMap "rawText") = true) as Hr by reflexivity.
  assert (resolveContext unreachable (VObject rawTextMap)
          = Normal (prepareSafe (extractionDefaults (objectVars rawTextMap))))
    as Hc by reflexivity.
  split; [exact Hr|]. split; [exact Hc|].
  destruct (extraction_keeps_other_fields (R := asciiRuntime) _ _ _ Hr Hc)
    as (-> & _).
  reflexivity.
Defined.

Lemma extraction_structured_result_witness :
  extracting [] extractedAnswer extractorParams (extractorPrompt (lit "hello"))
  = CallReturns [] extractedAnswer
  /\ truthy extractedAnswer = true
  /\ exists c,
       resolveContext (extracting [] extractedAnswer) (VString (lit "hello")) = Normal c
       /\ safeName c = lit "Asha K"
       /\ safeLocation c = lit "India".
Proof.
  split; [reflexivity|]. split; [reflexivity|].
  destruct (extraction_structured_result (R := asciiRuntime)
              (extracting [] extractedAnswer) (lit "hello") [] extractedAnswer
              eq_refl eq_refl) as (c & Hc & Hn & _ & _ & Hl).
  exists c. split; [exact Hc|]. split; [rewrite Hn | rewrite Hl]; reflexivity.
Defined.

Lemma extraction_without_braces_witness :
  extracting (lit "no fields found") VUndefined extractorParams
    (extractorPrompt (lit "hello"))
  = CallReturns (lit "no fields found") VUndefined
  /\ truthy VUndefined = false
  /\ indexOf 123 (lit "no fields found") = -1
  /\ resolveContext (extracting (lit "no fields found") VUndefined)
       (VString (lit "hello"))
     = Normal extractedDefaultContext.
Proof.
  split; [reflexivity|]. split; [reflexivity|]. split; [reflexivity|].
  apply (extraction_without_braces (R := asciiRuntime)
           (extracting (lit "no fields found") VUndefined) (lit "hello")
           (lit "no fields found") VUndefined eq_refl eq_refl).
  left. reflexivity.
Defined.

Lemma structured_answer_decides_witness :
  extracting (lit "{}") extractedAnswer generatorParams (prompt defaultContext)
  = CallReturns (lit "{}") extractedAnswer
  /\ truthy extractedAnswer = true
  /\ compose (extracting (lit "{}") extractedAnswer) defaultContext
     = fallback defaultContext.
Proof.
  split; [reflexivity|]. split; [reflexivity|].
  apply (structured_answer_decides (R := asciiRuntime)
           (extracting (lit "{}") extractedAnswer) defaultContext
           (lit "{}") extractedAnswer eq_refl eq_refl).
Defined.

Lemma blank_generated_subject_witness :
  resolveContext (answering (lit "   ") (lit "Dear HR Manager,")) (VObject ∅)
  = Normal defaultContext
  /\ generatedFields (answering (lit "   ") (lit "Dear HR Manager,")) defaultContext
     = Normal (lit "   ", lit "Dear HR Manager,")
  /\ all_ws (lit "   ") = true
  /\ generateEmail (answering (lit "   ") (lit "Dear HR Manager,")) (VObject ∅)
     = Normal {| subject := []; body := trim (replace_crlf (lit "Dear HR Manager,")) |}.
Proof.
  assert (resolveContext (answering (lit "   ") (lit "Dear HR Manager,")) (VObject ∅)
          = Normal defaultContext) as Hc by reflexivity.
  assert (generatedFields (answering (lit "   ") (lit "Dear HR Manager,"))
            defaultContext
          = Normal (lit "   ", lit "Dear HR Manager,")) as Hg by reflexivity.
  assert (all_ws (lit "   ") = true) as Hw by reflexivity.
  split; [exact Hc|]. split; [exact Hg|]. split; [exact Hw|].
  exact (blank_generated_subject (R := asciiRuntime) _ _ _ _ _ Hc Hg Hw).
Defined.

Lemma brace_slice_witness :
  indexOf 123 (lit "ok: {a} and {b} done") <> -1
  /\ lastIndexOf 125 (lit "ok: {a} and {b} done") <> -1
  /\ indexOf 123 (lit "ok: {a} and {b} done")
     < lastIndexOf 125 (lit "ok: {a} and {b} done")
  /\ exists mid,
       slice (lit "ok: {a} and {b} done")
         (indexOf 123 (lit "ok: {a} and {b} done"))
         (lastIndexOf 125 (lit "ok: {a} and {b} done") + 1)
       = 123%N :: mid ++ [125%N].
Proof.
  assert (indexOf 123 (lit "ok: {a} and {b} done") <> -1) as Hs by (by vm_compute).
  assert (lastIndexOf 125 (lit "ok: {a} and {b} done") <> -1) as He by (by vm_compute).
  assert (indexOf 123 (lit "ok: {a} and {b} done")
          < lastIndexOf 125 (lit "ok: {a} and {b} done")) as Hlt by (by vm_compute).
  split; [exact Hs|]. split; [exact He|]. split; [exact Hlt|].
  exact (proj1 (brace_slice (lit "ok: {a} and {b} done") Hs He) Hlt).
Defined.

Lemma jobRoleMatch_sound_witness :
  jobRoleMatch (lit "Senior ENGINEER wanted") = Some (lit "ENGINEER")
  /\ (ascii_lower <$> lit "ENGINEER") ∈ roleKeywords
  /\ includes (lit "ENGINEER") (lit "Senior ENGINEER wanted") = true.
Proof.
  assert (jobRoleMatch (lit "Senior ENGINEER wanted") = Some (lit "ENGINEER"))
    as H by reflexivity.
  split; [exact H|]. exact (jobRoleMatch_sound _ _ H).
Defined.

Lemma companyMatch_sound_witness :
  companyMatch initechText = Some (lit "Initech")
  /\ lit "Initech" <> []
  /\ forallb in_company_class (lit "Initech") = true
  /\ includes (lit "Initech") initechText = true.
Proof.
  assert (companyMatch initechText = Some (lit "Initech")) as H by reflexivity.
  split; [exact H|]. exact (companyMatch_sound _ _ H).
Defined.

Lemma postGenerate_500_iff_witness :
  postGenerate unreachable VNull = Status500 TypeError.
Proof.
  apply (proj2 (postGenerate_500_iff (R := asciiRuntime) unreachable VNull TypeError)).
  split; [reflexivity|]. right. left. reflexivity.
Defined.

Lemma postGenerate_generation_only_witness :
  (forall pr, unreachable generatorParams pr = generationDown generatorParams pr)
  /\ postGenerate unreachable ashaBody = postGenerate generationDown ashaBody.
Proof.
  assert (forall pr, unreachable generatorParams pr = generationDown generatorParams pr)
    as H by reflexivity.
  split; [exact H|].
  exact (postGenerate_generation_only (R := asciiRuntime) _ _ ashaBody H).
Defined.

Lemma route_hr_email_witness :
  postGenerate unreachable ashaBody
  = Status200 (structuredData ashaBody)
      (fallback (prepareSafe (objectVars (fieldsMap (structuredValue ashaBody)))))
  /\ exists c,
       resolveContext unreachable (structuredData ashaBody) = Normal c
       /\ safeHrEmail c = lit "hr@company.com".
Proof.
  assert (postGenerate unreachable ashaBody
          = Status200 (structuredData ashaBody)
              (fallback (prepareSafe (objectVars (fieldsMap (structuredValue ashaBody))))))
    as Hp by reflexivity.
  split; [exact Hp|].
  destruct (route_hr_email (R := asciiRuntime) _ _ _ _ Hp) as (c & Hc & _ & Hh).
  exists c. split; [exact Hc|]. rewrite Hh. reflexivity.
Defined.

Lemma structured_fields_truthy_witness :
  is_string ashaBody = false
  /\ get_prop ashaBody (lit "input") = Normal VUndefined
  /\ truthy VUndefined = false
  /\ exists p e,
       postGenerate unreachable ashaBody = Status200 p e
       /\ forall f : Field,
            truthy (prop p (fieldKey f)) = true
            \/ ((f = FUserPhone \/ f = FCompanyPhone)
                /\ prop p (fieldKey f) = VString []).
Proof.
  split; [reflexivity|]. split; [reflexivity|]. split; [reflexivity|].
  apply (structured_fields_truthy (R := asciiRuntime) unreachable ashaBody VUndefined);
    reflexivity.
Defined.
